(** * SmartStudy Abroad: the record store helpers, route handlers and view
      state updates, embedded from the repository's sources.

    Sources embedded here:
    - [backend/mongodb_handler.py] as printed in PROJECT_DOCUMENTATION.md
      ([normalize_name], [save_program], [find_program], [update_program],
      [delete_program], [get_all_programs], [search_programs]);
    - [backend/api_server.py] as printed there (the [search] route);
    - [src/app/api/{search,findme,chat}/route.ts] (the three [POST] handlers);
    - [src/components/SearchTab.tsx] ([handleSearch], [handleUpdate]),
      [src/components/FindForMeTab.tsx] ([handleFind], [getScoreColor],
      [getScoreBgColor]),
      [src/components/AIChat.tsx] (the [systemMessages] effect, [handleSend]),
      [src/app/page.tsx] ([handleAIMessage]).
    The Match Scorer (backend/rag/matcher.py) is not among them: module
    [Matcher] models it from the specification. The pattern matcher of the
    database server is not part of the repository either: the handlers take
    it as a parameter, and module [Pcre] writes out the fragment of it that
    the lookup is examined with.

    Strings are sequences of code points below 256, carried by Rocq's 8-bit
    characters. *)

From Stdlib Require Import ZArith QArith Qminmax Qround Lia Lqa Ascii String DecimalString.
From Stdlib Require DecimalZ DecimalPos.
From stdpp Require Import gmap strings list.

Open Scope string_scope.

(** ** Python's [str.lower] and [str.strip] on code points below 256 *)

Module PyStr.

(** [str.isspace] for one code point: TAB..CR, FS..US, SPACE, NEL, NBSP. *)
Definition is_space (c : ascii) : bool :=
  let n := N_of_ascii c in
  ((9 <=? n) && (n <=? 13) || (28 <=? n) && (n <=? 32)
   || (n =? 133) || (n =? 160))%N.

(** Cased upper-case code points: A..Z, and the Latin-1 letters U+00C0..U+00DE
    except the multiplication sign U+00D7. *)
Definition is_upper (c : ascii) : bool :=
  let n := N_of_ascii c in
  ((65 <=? n) && (n <=? 90)
   || (192 <=? n) && (n <=? 222) && negb (n =? 215))%N.

Definition lower_char (c : ascii) : ascii :=
  if is_upper c then ascii_of_N (N_of_ascii c + 32) else c.

Fixpoint lower (s : string) : string :=
  match s with
  | EmptyString => EmptyString
  | String c s' => String (lower_char c) (lower s')
  end.

Fixpoint lstrip (s : string) : string :=
  match s with
  | EmptyString => EmptyString
  | String c s' => if is_space c then lstrip s' else s
  end.

Fixpoint rstrip (s : string) : string :=
  match s with
  | EmptyString => EmptyString
  | String c s' =>
      match rstrip s' with
      | EmptyString => if is_space c then EmptyString else String c EmptyString
      | r => String c r
      end
  end.

(** [s.strip()]: leading and trailing whitespace removed. *)
Definition strip (s : string) : string := rstrip (lstrip s).

(** Every character of the string is whitespace. *)
Fixpoint all_space (s : string) : bool :=
  match s with
  | EmptyString => true
  | String c s' => is_space c && all_space s'
  end.

(** A string that does not start with whitespace. *)
Definition no_lead (s : string) : Prop :=
  match s with
  | EmptyString => True
  | String c _ => is_space c = false
  end.

End PyStr.

(** ** The database server's [$regex] with option [i]

    [find_program], [update_program], [delete_program] and
    [search_programs] hand a string of the caller to the server as
    [{'$regex': p, '$options': 'i'}], unescaped. The server reads it as a
    Perl-compatible regular expression and looks for a match anywhere in the
    stored string, letters compared without regard to case. The fragment of
    that syntax written out here: literal characters, [.], groups,
    alternation, the quantifiers [*], [+] and [?], and a backslash before a
    character that is not alphanumeric. A pattern outside the fragment, or
    one the server rejects, does not parse. *)

Module Pcre.

Inductive regex :=
| Void
| Eps
| Chr (c : ascii)
| Any
| Cat (r1 r2 : regex)
| Alt (r1 r2 : regex)
| Star (r : regex).














Fixpoint nullable (r : regex) : bool :=
  match r with
  | Void | Chr _ | Any => false
  | Eps | Star _ => true
  | Cat a b => nullable a && nullable b
  | Alt a b => nullable a || nullable b
  end.

(** Option [i]: two characters are the same letter when their lower-case
    forms are equal. *)
Definition same_letter (c d : ascii) : bool :=
  Ascii.eqb (PyStr.lower_char c) (PyStr.lower_char d).

(** What is left of [r] to match once the character [d] has been read. The
    dot matches every character but the line feed. *)
Fixpoint deriv (d : ascii) (r : regex) : regex :=
  match r with
  | Void | Eps => Void
  | Chr c => if same_letter c d then Eps else Void
  | Any => if Ascii.eqb d "010" then Void else Eps
  | Cat a b =>
      if nullable a then Alt (Cat (deriv d a) b) (deriv d b)
      else Cat (deriv d a) b
  | Alt a b => Alt (deriv d a) (deriv d b)
  | Star a => Cat (deriv d a) (Star a)
  end.

(** Some prefix of [s] matches [r]. *)
Fixpoint match_prefix (r : regex) (s : string) : bool :=
  nullable r
  || match s with
     | EmptyString => false
     | String d s' => match_prefix (deriv d r) s'
     end.

(** The match is not anchored: it may start at any position of [s]. *)
Fixpoint search (r : regex) (s : string) : bool :=
  match_prefix r s
  || match s with
     | EmptyString => false
     | String _ s' => search r s'
     end.


End Pcre.

(** ** backend/mongodb_handler.py *)

Module MongoHandler.

(** The [abbreviations] dictionary of [normalize_name], as the source lists
    it. *)
Definition abbreviations : gmap string string :=
  <["mit" := "massachusetts institute of technology"]>
  (<["ucla" := "university of california los angeles"]>
  (<["usc" := "university of southern california"]> ∅)).

Section Normalizer.
(** [normalize_name] over an arbitrary abbreviation dictionary; the
    source's own dictionary is [abbreviations]. *)
Variable table : gmap string string.

Definition normalize_with (name : string) : string :=
  let normalized := PyStr.strip (PyStr.lower name) in
  match table !! normalized with
  | Some expansion => expansion
  | None => normalized
  end.

(** Every expansion of the dictionary is itself in normal form. *)
Definition expansions_normal : Prop :=
  forall k e, table !! k = Some e -> normalize_with e = e.
End Normalizer.

Definition normalize_name (name : string) : string :=
  normalize_with abbreviations name.

(** *** The [programs] collection *)

(** Values stored under a document's keys. *)
Inductive value :=
| VStr (s : string)
| VDate (t : Z)
| VNum (n : Z)
| VBool (b : bool).

#[global] Instance value_eq_dec : EqDecision value.
Proof. solve_decision. Defined.

(** A stored document: the server-assigned [_id] and the other fields. Every
    document returned by the collection carries [_id], so as a Python dict it
    is never empty (and hence truthy). *)
Record document := Document {
  _id : N;
  doc_fields : gmap string value
}.

(** The collection in natural (insertion) order, with the next id the server
    hands out. *)
Record collection := Collection {
  docs : list document;
  next_id : N
}.

Definition empty_collection : collection := Collection [] 0.

(** One condition of a query document: [{key: v}] or
    [{key: {'$regex': p, '$options': 'i'}}]. *)
Inductive cond :=
| Equals (v : string)
| Regex (pattern : string).

Definition query := list (string * cond).

(** The lookup key of §3: (normalized name, degree, field). *)
Definition doc_key (d : document) : option value * option value * option value :=
  (doc_fields d !! "normalized_name", doc_fields d !! "degree",
   doc_fields d !! "field").

(** [data.get('university', '')] followed by the string methods of
    [normalize_name]: a missing key reads as the empty string, a value that is
    not a string raises (here [None]). *)
Definition get_university (data : gmap string value) : option string :=
  match data !! "university" with
  | None => Some ""
  | Some (VStr s) => Some s
  | Some _ => None
  end.

(** [programs.insert_one(data)]: the document goes last and gets a fresh id. *)
Definition insert_one (data : gmap string value) (c : collection)
  : collection * N :=
  (Collection (docs c ++ [Document (next_id c) data]) (N.succ (next_id c)),
   next_id c).

(** [save_program(data)]; [t_created] and [t_updated] are the two readings of
    [datetime.now()]. [data] is a dict of its own without [_id], as the search
    route builds one per request. Returns the new collection and the inserted
    id, or [None] when [normalize_name] raises. *)
Definition save_program (data : gmap string value) (t_created t_updated : Z)
    (c : collection) : option (collection * N) :=
  let data := <["created_at" := VDate t_created]> data in
  let data := <["updated_at" := VDate t_updated]> data in
  match get_university data with
  | None => None
  | Some university =>
      let data := <["normalized_name" := VStr (normalize_name university)]> data in
      Some (insert_one data c)
  end.

(** The fields [save_program] stores for [data] whose university is [name]. *)
Definition stamped (data : gmap string value) (t_created t_updated : Z)
    (name : string) : gmap string value :=
  <["normalized_name" := VStr (normalize_name name)]>
    (<["updated_at" := VDate t_updated]>
       (<["created_at" := VDate t_created]> data)).

Section Queries.
(** [regex_search p s]: the database server's [$regex] match of pattern [p]
    against the string [s] with option [i] (case-insensitive, unanchored).
    The regex engine belongs to the server, not to this repository;
    [Pcre.search_i] is a fragment of it. *)
Variable regex_search : string -> string -> bool.

Definition cond_holds (c : cond) (v : value) : bool :=
  match v, c with
  | VStr s, Equals w => String.eqb s w
  | VStr s, Regex p => regex_search p s
  | _, _ => false
  end.

(** The condition [c] holds of what the document has under key [k]; a
    missing key satisfies neither kind of condition. *)
Definition holds_at (m : gmap string value) (k : string) (c : cond) : bool :=
  match m !! k with
  | Some v => cond_holds c v
  | None => false
  end.

Definition matches (q : query) (d : document) : bool :=
  forallb (fun kc => holds_at (doc_fields d) kc.1 kc.2) q.

(** [programs.find_one(q)]: the first matching document in natural order. *)
Definition find_one (q : query) (c : collection) : option document :=
  List.find (matches q) (docs c).

Definition exact_query (normalized degree field : string) : query :=
  [("normalized_name", Equals normalized); ("degree", Equals degree);
   ("field", Regex field)].

Definition fuzzy_query (normalized degree field : string) : query :=
  [("normalized_name", Regex normalized); ("degree", Equals degree);
   ("field", Regex field)].

(** [find_program(university, degree, field)]. The result is the found
    document without its [_id] ([result.pop('_id', None)]); the second
    component lists the queries sent to the collection, in order. *)
Definition find_program (c : collection) (university degree field : string)
  : option (gmap string value) * list query :=
  let normalized := normalize_name university in
  let q1 := exact_query normalized degree field in
  match find_one q1 c with
  | Some result => (Some (doc_fields result), [q1])
  | None =>
      let q2 := fuzzy_query normalized degree field in
      match find_one q2 c with
      | Some result => (Some (doc_fields result), [q1; q2])
      | None => (None, [q1; q2])
      end
  end.

(** [update_one(filter, {'$set': new_data})] on the document list: the
    first match gets the new fields, the rest is untouched. The flag is
    [modified_count > 0]: a document matched and the update changed it. *)
Fixpoint update_one (q : query) (new_data : gmap string value)
    (l : list document) : list document * bool :=
  match l with
  | [] => ([], false)
  | d :: l' =>
      if matches q d then
        let d' := Document (_id d) (new_data ∪ doc_fields d) in
        (d' :: l', bool_decide (doc_fields d' ≠ doc_fields d))
      else
        let r := update_one q new_data l' in (d :: r.1, r.2)
  end.

(** [update_program(university, degree, field, new_data)]; [now] is the
    reading of [datetime.now()]. *)
Definition update_program (c : collection) (university degree field : string)
    (new_data : gmap string value) (now : Z) : collection * bool :=
  let normalized := normalize_name university in
  let new_data := <["updated_at" := VDate now]> new_data in
  let r := update_one (exact_query normalized degree field) new_data (docs c) in
  (Collection r.1 (next_id c), r.2).

(** [delete_one(filter)] on the document list: the first match is removed.
    The flag is [deleted_count > 0]. *)
Fixpoint delete_one (q : query) (l : list document) : list document * bool :=
  match l with
  | [] => ([], false)
  | d :: l' =>
      if matches q d then (l', true)
      else let r := delete_one q l' in (d :: r.1, r.2)
  end.

(** [delete_program(university, degree, field)]. *)
Definition delete_program (c : collection) (university degree field : string)
  : collection * bool :=
  let normalized := normalize_name university in
  let r := delete_one (exact_query normalized degree field) (docs c) in
  (Collection r.1 (next_id c), r.2).

(** The [$or] filter of [search_programs]: the pattern matches what the
    document has under [university], [field] or [official_name]. *)
Definition matches_any (pattern : string) (d : document) : bool :=
  holds_at (doc_fields d) "university" (Regex pattern)
  || holds_at (doc_fields d) "field" (Regex pattern)
  || holds_at (doc_fields d) "official_name" (Regex pattern).

(** [search_programs(query)]: every matching document, in natural order,
    each without its [_id]. *)
Definition search_programs (c : collection) (pattern : string)
  : list (gmap string value) :=
  List.map doc_fields (List.filter (matches_any pattern) (docs c)).
End Queries.

(** [get_all_programs()]: every document, in natural order, each without its
    [_id]. *)
Definition get_all_programs (c : collection) : list (gmap string value) :=
  List.map doc_fields (docs c).

(** A regex engine restricted to patterns without metacharacters: the
    pattern occurs in the subject, compared case-insensitively. *)
Fixpoint contains (p s : string) : bool :=
  String.prefix p s
  || match s with
     | EmptyString => false
     | String _ s' => contains p s'
     end.

Definition literal_search_i (p s : string) : bool :=
  contains (PyStr.lower p) (PyStr.lower s).

(** No two stored documents have the same lookup key. *)
Definition unique_keys (c : collection) : Prop :=
  NoDup (doc_key <$> docs c).

Section Hits.
Variable regex_search : string -> string -> bool.
Variables normalized degree field : string.

(** The document has this degree and its field matches the [field]
    pattern. *)
Definition degree_field_hit (d : document) : Prop :=
  doc_fields d !! "degree" = Some (VStr degree)
  /\ exists s, doc_fields d !! "field" = Some (VStr s)
               /\ regex_search field s = true.

(** Exact attempt: the stored normalized name equals [normalized]. *)
Definition exact_hit (d : document) : Prop :=
  doc_fields d !! "normalized_name" = Some (VStr normalized)
  /\ degree_field_hit d.

(** Fuzzy attempt: the stored normalized name matches [normalized] taken
    as a pattern. *)
Definition fuzzy_hit (d : document) : Prop :=
  (exists s, doc_fields d !! "normalized_name" = Some (VStr s)
             /\ regex_search normalized s = true)
  /\ degree_field_hit d.

(** The document answers the lookup, on the exact or on the fuzzy attempt. *)
Definition any_hit (d : document) : Prop := exact_hit d \/ fuzzy_hit d.
End Hits.

(** A record as the search route saves it. *)
Definition mit_program : gmap string value :=
  <["university" := VStr "MIT"]>
  (<["degree" := VStr "Master"]>
  (<["field" := VStr "Computer Science"]> ∅)).

End MongoHandler.

(** ** backend/api_server.py: the [/api/search] route *)

Module ApiServer.
Import MongoHandler.

(** The JSON body of the docstring, as [data.get] reads it: a key that is
    absent is [None]. [field] is always sent by the client. *)
Record SearchBody := {
  university : option string;
  degree : option string;
  field : string;
  fetchAll : option bool
}.

(** A call to the [data_extractor] module. *)
Inductive extractor_call :=
| ExtractAll (university degree field : string)
| ExtractInfo (university degree field question : string).

(** The dict handed to [jsonify]. [Fresh] carries the document as
    [save_program] left it: [insert_one] has put the [_id] into the very dict
    that is returned. *)
Inductive reply :=
| Cached (data : gmap string value) (data_year official_name : option value)
| Fresh (data : document) (official_name : option value).

Definition source (r : reply) : string :=
  match r with
  | Cached _ _ _ => "cache"
  | Fresh _ _ => "claude"
  end.

(** [TypeError] is the one [jsonify] raises: Object of type ObjectId is not
    JSON serializable. *)
Inductive error :=
| AttributeError
| NameError
| ExtractorError
| TypeError.

(** [jsonify(...)]: Flask's JSON provider writes strings, numbers, booleans
    and datetimes, so a cached record (read back with its [_id] popped) goes
    through; the [ObjectId] that [insert_one] left under [_id] of the fresh
    record does not. *)
Definition jsonify (r : reply) : error + reply :=
  match r with
  | Cached _ _ _ => inr r
  | Fresh _ _ => inl TypeError
  end.

(** What one request did: the store afterwards, the extractor calls made, and
    the reply sent or the exception that ended it. *)
Record outcome := Outcome {
  store : collection;
  asked : list extractor_call;
  answer : error + reply
}.

Section Search.
Variable regex_search : string -> string -> bool.
(** [data_extractor.extract_all_info] and [data_extractor.extract_info]: the
    record they return, or [None] when they raise. *)
Variable extract_all_info : string -> string -> string -> option (gmap string value).
Variable extract_info :
  string -> string -> string -> string -> option (gmap string value).
(** The name [question], which [search] reads without binding it: what it
    is bound to at module level, if anything. *)
Variable question : option string.

(** Steps 2 to 4 of [search]: ask the extractor, save, hand the saved dict to
    [jsonify]. The write of step 3 has happened when step 4 raises. *)
Definition fetch_and_save (c : collection) (u d f : string) (fetch_all : bool)
    (t_created t_updated : Z) : outcome :=
  let request :=
    if fetch_all then Some (ExtractAll u d f, extract_all_info u d f)
    else match question with
         | Some q => Some (ExtractInfo u d f q, extract_info u d f q)
         | None => None
         end in
  match request with
  | None => Outcome c [] (inl NameError)
  | Some (call, None) => Outcome c [call] (inl ExtractorError)
  | Some (call, Some fresh_data) =>
      match save_program fresh_data t_created t_updated c with
      | None => Outcome c [call] (inl AttributeError)
      | Some (c', inserted) =>
          let saved := default (Document inserted fresh_data) (last (docs c')) in
          Outcome c' [call]
            (jsonify (Fresh saved (doc_fields saved !! "official_name")))
      end
  end.

(** [search()]; [t_created] and [t_updated] are the clock readings
    [save_program] takes if it runs. An empty dict is falsy, so
    [if cached_data] also asks for a non-empty document. *)
Definition search (c : collection) (data : SearchBody)
    (t_created t_updated : Z) : outcome :=
  match university data with
  | None => Outcome c [] (inl AttributeError)
  | Some u =>
      let d := default "Master" (degree data) in
      let f := field data in
      let fetch_all := default false (fetchAll data) in
      match (find_program regex_search c u d f).1 with
      | Some cached_data =>
          if bool_decide (cached_data = ∅) then
            fetch_and_save c u d f fetch_all t_created t_updated
          else
            Outcome c []
              (jsonify (Cached cached_data (cached_data !! "data_year")
                          (cached_data !! "official_name")))
      | None => fetch_and_save c u d f fetch_all t_created t_updated
      end
  end.
End Search.

End ApiServer.

(** ** JavaScript values as the handlers and components see them *)

Set Warnings "-register-all".

Module JS.

(** A parsed JSON value. Numbers are carried as integers, the numbers the
    code reads being counts, years and clock readings; it only tests them
    for zero and prints them. *)
Inductive json :=
| JNull
| JBool (b : bool)
| JNum (n : Z)
| JStr (s : string)
| JArr (l : list json)
| JObj (m : gmap string json).

(** The result of reading a property or a variable: [None] is [undefined]. *)
Definition jsval := option json.

(** ToBoolean. *)
Definition truthy (v : jsval) : bool :=
  match v with
  | None | Some JNull => false
  | Some (JBool b) => b
  | Some (JNum n) => negb (n =? 0)%Z
  | Some (JStr s) => negb (String.eqb s "")
  | Some (JArr _) | Some (JObj _) => true
  end.

(** [a || b]. *)
Definition js_or (a b : jsval) : jsval := if truthy a then a else b.

(** [v.k]. The outer [None] is the TypeError raised when [v] is [null] or
    [undefined]. Of the properties that strings and arrays have on their own
    only [length] is read by the code. *)
Definition get_prop (v : jsval) (k : string) : option jsval :=
  match v with
  | None | Some JNull => None
  | Some (JObj m) => Some (m !! k)
  | Some (JStr s) =>
      Some (if String.eqb k "length" then Some (JNum (Z.of_nat (String.length s)))
            else None)
  | Some (JArr l) =>
      Some (if String.eqb k "length" then Some (JNum (Z.of_nat (List.length l)))
            else None)
  | Some (JBool _) | Some (JNum _) => Some None
  end.

(** An object literal: properties whose value is [undefined] are left out by
    [JSON.stringify]; a later property overrides an earlier one of the same
    name. *)
Definition obj_of (props : list (string * jsval)) : gmap string json :=
  foldl (fun m kv => match kv.2 with
                     | Some j => <[kv.1 := j]> m
                     | None => delete kv.1 m
                     end) ∅ props.

Definition Z_to_string (x : Z) : string := NilZero.string_of_int (Z.to_int x).

(** ToString on a JSON value, as a template literal applies it. A number is
    printed in full, which is what JavaScript prints for an integer of
    magnitude below 10^21. *)
Fixpoint to_string (j : json) : string :=
  match j with
  | JNull => "null"
  | JBool true => "true"
  | JBool false => "false"
  | JNum n => Z_to_string n
  | JStr s => s
  | JArr l =>
      String.concat ","
        (List.map (fun e => match e with JNull => "" | _ => to_string e end) l)
  | JObj _ => "[object Object]"
  end.

Definition show (v : jsval) : string :=
  match v with
  | None => "undefined"
  | Some j => to_string j
  end.

(** [v === s] for a string literal [s]. *)
Definition is_string (v : jsval) (s : string) : bool :=
  match v with
  | Some (JStr t) => String.eqb t s
  | _ => false
  end.

(** WhiteSpace and LineTerminator code points below 256: TAB..CR, SPACE,
    NBSP. *)
Definition is_white (c : ascii) : bool :=
  let n := N_of_ascii c in
  ((9 <=? n) && (n <=? 13) || (n =? 32) || (n =? 160))%N.

Fixpoint trim_start (s : string) : string :=
  match s with
  | EmptyString => EmptyString
  | String c s' => if is_white c then trim_start s' else s
  end.

Fixpoint trim_end (s : string) : string :=
  match s with
  | EmptyString => EmptyString
  | String c s' =>
      match trim_end s' with
      | EmptyString => if is_white c then EmptyString else String c EmptyString
      | r => String c r
      end
  end.

(** [s.trim()]. *)
Definition trim (s : string) : string := trim_end (trim_start s).

(** Every character of the string is white space. *)
Fixpoint all_white (s : string) : bool :=
  match s with
  | EmptyString => true
  | String c s' => is_white c && all_white s'
  end.

(** One [fetch(url, {method: 'POST', headers: {'Content-Type':
    'application/json'}, body: JSON.stringify(body)})]. *)
Record fetch_call := FetchCall {
  url : string;
  body : json
}.

(** What [await fetch(...)] followed by [await response.json()] gives: either
    step may throw, with [shown] the text of the exception when it is put in a
    template literal. *)
Inductive fetch_result :=
| FetchThrows (shown : string)
| JsonThrows (shown : string)
| Parsed (data : json).

End JS.

(** ** src/app/api/*/route.ts *)

Module Route.
Import JS.

Record response := Response {
  status : Z;
  resp_body : json
}.

(** What a handler did: the requests it sent to the backend, in order, and
    the response it returned. *)
Record outcome := Outcome {
  sent : list fetch_call;
  reply : response
}.

(** The body of a [try] block: the requests sent so far, and the value
    reached unless something was thrown. *)
Definition Eff (A : Type) : Type := (list fetch_call * option A)%type.

Definition ret {A} (a : A) : Eff A := ([], Some a).

Definition bind {A B} (m : Eff A) (k : A -> Eff B) : Eff B :=
  match m with
  | (l, None) => (l, None)
  | (l, Some a) => let r := k a in ((l ++ r.1)%list, r.2)
  end.

Notation "'let*' x ':=' m 'in' k" := (bind m (fun x => k))
  (at level 10, x name, m at level 100, k at level 200).

(** [try { ... return NextResponse.json(data) } catch { return fallback }]. *)
Definition try_catch (m : Eff response) (fallback : response) : outcome :=
  Outcome m.1 (default fallback m.2).

(** [await request.json()]: [None] when the inbound body is not JSON. *)
Definition request_json (request : option json) : Eff json := ([], request).

(** [const { a, b, ... } = body]: gives the property reader, and throws when
    [body] is [null]. *)
Definition destructure (body : json) : Eff (string -> jsval) :=
  ([], match body with
       | JNull => None
       | _ => Some (fun k => default None (get_prop (Some body) k))
       end).

(** The three API endpoints: /api/search, /api/findme, /api/chat. *)
Inductive endpoint := Search | FindMe | Chat.

Section Handlers.
(** [process.env.PYTHON_API_URL]. *)
Variable env_PYTHON_API_URL : option string.
(** The Python backend as the handlers reach it. *)
Variable backend : fetch_call -> fetch_result.

Definition PYTHON_API_URL : string :=
  match env_PYTHON_API_URL with
  | Some u => if String.eqb u "" then "http://localhost:5000" else u
  | None => "http://localhost:5000"
  end.

(** [fetch] to the backend, then [response.json()]. *)
Definition fetch_json (endpoint : string) (b : json) : Eff json :=
  let call := FetchCall (PYTHON_API_URL ++ endpoint) b in
  ([call], match backend call with
           | Parsed data => Some data
           | FetchThrows _ | JsonThrows _ => None
           end).

Definition backend_down : string :=
  "Failed to connect to backend. Make sure Python API is running.".

Definition chat_down : string :=
  "Sorry, I could not connect to the AI backend. Please try again later.".

(** src/app/api/findme/route.ts *)
Definition POST_findme (request : option json) : outcome :=
  try_catch
    (let* body := request_json request in
     let* data := fetch_json "/api/findme" body in
     ret (Response 200 data))
    (Response 500 (JObj {[ "error" := JStr backend_down ]})).

(** src/app/api/search/route.ts *)
Definition POST_search (request : option json) : outcome :=
  try_catch
    (let* body := request_json request in
     let* get := destructure body in
     let endpoint :=
       if truthy (get "fetchAll") then "/api/fetch_all" else "/api/search" in
     let* data := fetch_json endpoint
               (JObj (obj_of [("university", get "university");
                              ("degree", get "degree");
                              ("field", get "field");
                              ("question", get "question");
                              ("force_refresh",
                               js_or (get "forceRefresh") (Some (JBool false)))])) in
     ret (Response 200 data))
    (Response 500 (JObj (<["source" := JStr "error"]>
                         {[ "error" := JStr backend_down ]}))).

(** src/app/api/chat/route.ts *)
Definition POST_chat (request : option json) : outcome :=
  try_catch
    (let* body := request_json request in
     let* get := destructure body in
     let* data := fetch_json "/api/chat" (JObj (obj_of [("message", get "message")])) in
     ret (Response 200 data))
    (Response 500 (JObj {[ "response" := JStr chat_down ]})).

(** The app router: the [POST] handler that serves an endpoint. *)
Definition POST (e : endpoint) : option json -> outcome :=
  match e with
  | Search => POST_search
  | FindMe => POST_findme
  | Chat => POST_chat
  end.
End Handlers.

(** A backend that cannot be reached: [fetch] throws. *)
Definition unreachable : fetch_call -> fetch_result :=
  fun _ => FetchThrows "TypeError: fetch failed".

(** The three values the search result's [source] takes
    ([SearchResult] in SearchTab.tsx). *)
Definition source_values : list string := ["cache"; "claude"; "error"].

(** The body is an object with a [source] property holding one of them. *)
Definition carries_source (b : json) : Prop :=
  exists s, get_prop (Some b) "source" = Some (Some (JStr s)) /\ s ∈ source_values.

(** The body is an object with a string under [k]. *)
Definition has_string_field (k : string) (b : json) : Prop :=
  exists m s, b = JObj m /\ m !! k = Some (JStr s).

End Route.

(** ** src/components: the submit handlers and the chat transcript *)

Module Components.
Import JS.

(** What a handler does besides updating its own state, in order:
    [onAIMessage(message)] and [fetch] calls. *)
Inductive event :=
| AIMessage (message : json)
| Fetch (call : fetch_call).

Definition is_fetch (e : event) : bool :=
  match e with
  | Fetch _ => true
  | AIMessage _ => false
  end.

(** [!s] for a string [s]. *)
Definition blank (s : string) : bool := String.eqb s "".

Definition dquote : string := String (ascii_of_nat 34) EmptyString.

Inductive Degree := Bachelor | Master | PhD.

Definition degree_name (d : Degree) : string :=
  match d with
  | Bachelor => "Bachelor"
  | Master => "Master"
  | PhD => "PhD"
  end.

(** The [useState] cells of [SearchTab]; [result] is [null] until set. *)
Record SearchState := {
  university : string;
  degree : Degree;
  field : string;
  question : string;
  fetchAll : bool;
  loading : bool;
  result : json
}.

Definition set_search_outcome (st : SearchState) (r : json) : SearchState :=
  {| university := university st; degree := degree st; field := field st;
     question := question st; fetchAll := fetchAll st;
     loading := false; result := r |}.

(** The [useState] cells of [FindForMeTab]. *)
Record Requirements := {
  req_degree : string;
  req_field : string;
  maxTuition : string;
  minGPA : string;
  englishTest : string;
  englishScore : string;
  country : string;
  preferScholarship : bool
}.

Record FindState := {
  requirements : Requirements;
  find_loading : bool;
  results : json;
  totalInDatabase : json
}.

Definition requirements_props (r : Requirements) : list (string * jsval) :=
  [("degree", Some (JStr (req_degree r)));
   ("field", Some (JStr (req_field r)));
   ("maxTuition", Some (JStr (maxTuition r)));
   ("minGPA", Some (JStr (minGPA r)));
   ("englishTest", Some (JStr (englishTest r)));
   ("englishScore", Some (JStr (englishScore r)));
   ("country", Some (JStr (country r)));
   ("preferScholarship", Some (JBool (preferScholarship r)))].

Section Handlers.
(** The application's own API routes as the browser reaches them. *)
Variable server : fetch_call -> fetch_result.
(** The text of the TypeError raised by reading the named property of
    [null], as a template literal shows it (it depends on the engine). *)
Variable null_read_shown : string -> string.

(** [SearchTab.handleSearch]. *)
Definition handleSearch (st : SearchState) : SearchState * list event :=
  if blank (university st) || blank (field st) then
    (st, [AIMessage (JStr "Please enter university name and field of study")])
  else if negb (fetchAll st) && blank (question st) then
    (st, [AIMessage (JStr ("Please enter your question or check " ++ dquote
                           ++ "Fetch ALL" ++ dquote ++ " box"))])
  else
    let searching :=
      AIMessage (JStr ("Searching for " ++ university st ++ " - "
                       ++ degree_name (degree st) ++ " in " ++ field st ++ "...")) in
    let call :=
      FetchCall "/api/search"
        (JObj (obj_of [("university", Some (JStr (university st)));
                       ("degree", Some (JStr (degree_name (degree st))));
                       ("field", Some (JStr (field st)));
                       ("question",
                        Some (JStr (if fetchAll st then "all" else question st)));
                       ("fetchAll", Some (JBool (fetchAll st)))])) in
    let failed (shown : string) :=
      (JObj {[ "source" := JStr "error" ]},
       [AIMessage (JStr ("Error: " ++ shown))]) in
    let after :=
      match server call with
      | FetchThrows shown | JsonThrows shown => failed shown
      | Parsed data =>
          match get_prop (Some data) "source" with
          | None => failed (null_read_shown "source")
          | Some source =>
              let prop k := default None (get_prop (Some data) k) in
              (data,
               [AIMessage (JStr (
                  if is_string source "cache" then
                    "Found data from database ("
                    ++ show (js_or (prop "data_year") (Some (JStr "N/A"))) ++ ")"
                  else if is_string source "claude" then
                    "Fresh data fetched from AI and stored in database"
                  else
                    "Error: "
                    ++ show (js_or (prop "error") (Some (JStr "Unknown error")))))])
          end
      end in
    (set_search_outcome st after.1, searching :: Fetch call :: after.2).

(** [FindForMeTab.handleFind]. *)
Definition handleFind (st : FindState) : FindState * list event :=
  let r := requirements st in
  if blank (req_field r) then
    (st, [AIMessage (JStr "Please enter your field of study")])
  else
    let searching := AIMessage (JStr "RAG is searching your local database...") in
    let call :=
      FetchCall "/api/findme"
        (JObj (obj_of (requirements_props r ++ [("top_k", Some (JNum 5))]))) in
    let done (res total : json) (msg : json) :=
      ({| requirements := r; find_loading := false;
          results := res; totalInDatabase := total |},
       [searching; Fetch call; AIMessage msg]) in
    let failed (shown : string) :=
      done (JArr []) (totalInDatabase st) (JStr ("Error: " ++ shown)) in
    match server call with
    | FetchThrows shown | JsonThrows shown => failed shown
    | Parsed data =>
        match get_prop (Some data) "universities" with
        | None => failed (null_read_shown "universities")
        | Some universities =>
            let prop k := default None (get_prop (Some data) k) in
            match universities with
            | Some us =>
                if truthy universities then
                  done us
                    (default JNull (js_or (prop "total_in_database") (Some (JNum 0))))
                    (JStr ("Found "
                           ++ show (default None (get_prop universities "length"))
                           ++ " best matches from " ++ show (prop "total_in_database")
                           ++ " universities! (RAG - Local Search)"))
                else
                  done (JArr []) (totalInDatabase st)
                    (default JNull (js_or (prop "error")
                                      (Some (JStr "No universities found"))))
            | None =>
                done (JArr []) (totalInDatabase st)
                  (default JNull (js_or (prop "error")
                                    (Some (JStr "No universities found"))))
            end
        end
    end.

(** [SearchTab.handleUpdate]. *)
Definition handleUpdate (st : SearchState) : SearchState * list event :=
  let fetching := AIMessage (JStr "Fetching fresh data from AI...") in
  let call :=
    FetchCall "/api/search"
      (JObj (obj_of [("university", Some (JStr (university st)));
                     ("degree", Some (JStr (degree_name (degree st))));
                     ("field", Some (JStr (field st)));
                     ("fetchAll", Some (JBool true));
                     ("forceRefresh", Some (JBool true))])) in
  match server call with
  | FetchThrows shown | JsonThrows shown =>
      (set_search_outcome st (result st),
       [fetching; Fetch call; AIMessage (JStr ("Error updating: " ++ shown))])
  | Parsed data =>
      (set_search_outcome st data,
       [fetching; Fetch call; AIMessage (JStr "Data updated successfully!")])
  end.
End Handlers.

(** [FindForMeTab.getScoreColor] and [getScoreBgColor]. *)
Definition getScoreColor (score : Q) : string :=
  if Qle_bool 90 score then "from-emerald-500 to-teal-500"
  else if Qle_bool 75 score then "from-blue-500 to-indigo-500"
  else if Qle_bool 60 score then "from-amber-500 to-orange-500"
  else "from-slate-400 to-slate-500".

Definition getScoreBgColor (score : Q) : string :=
  if Qle_bool 90 score then "bg-emerald-500"
  else if Qle_bool 75 score then "bg-blue-500"
  else if Qle_bool 60 score then "bg-amber-500"
  else "bg-slate-400".

(** *** AIChat.tsx *)

Inductive Sender := user | ai.

Record Message := {
  id : string;
  text : string;
  sender : Sender;
  timestamp : Z
}.

(** [existingTexts.includes(lastMessage)]. *)
Definition includes (texts : list string) (s : string) : bool :=
  existsb (String.eqb s) texts.

(** The updater the [systemMessages] effect passes to [setMessages];
    [now_id] and [now_date] are the readings of [Date.now()] and
    [new Date()]. *)
Definition add_system_message (lastMessage : string) (now_id now_date : Z)
    (prev : list Message) : list Message :=
  let existingTexts := List.map text prev in
  if negb (includes existingTexts lastMessage) then
    (prev ++ [{| id := Z_to_string now_id; text := lastMessage;
                 sender := ai; timestamp := now_date |}])%list
  else prev.

(** The effect itself: nothing happens on an empty [systemMessages]. *)
Definition systemMessages_effect (systemMessages : list string)
    (now_id now_date : Z) (messages : list Message) : list Message :=
  match last systemMessages with
  | None => messages
  | Some lastMessage => add_system_message lastMessage now_id now_date messages
  end.

(** The [useState] cells of [AIChat]. *)
Record ChatState := {
  messages : list Message;
  input : string;
  chat_loading : bool;
  isExpanded : bool
}.

(** The four clock readings of one [handleSend]: [Date.now()] and
    [new Date()] for the user's message, then for the reply. *)
Record SendClock := {
  user_now : Z;
  user_date : Z;
  reply_now : Z;
  reply_date : Z
}.

Definition could_not_process : string := "Sorry, I could not process that.".
Definition send_error : string := "Sorry, there was an error. Please try again.".

(** What comes of the updater [prev => [...prev, {..., text: ...}]] that
    [handleSend] hands to [setMessages] for the reply, when React runs it. *)
Inductive reply_update :=
| Appends (answer : string)
| UpdaterThrows
| NotAString.

(** The updater of the [catch] branch has a constant text. The updater of
    the [try] branch reads [data.response] when React runs it, which is
    after [handleSend] has left its [try]: on a [null] body the read raises
    a TypeError that no [catch] sees, and no reply is appended.
    [data.response || '...'] is typed as a string; a truthy [response] that
    is not a string is outside the component's types. *)
Definition reply_text (r : fetch_result) : reply_update :=
  match r with
  | FetchThrows _ | JsonThrows _ => Appends send_error
  | Parsed data =>
      match get_prop (Some data) "response" with
      | None => UpdaterThrows
      | Some response =>
          match js_or response (Some (JStr could_not_process)) with
          | Some (JStr s) => Appends s
          | _ => NotAString
          end
      end
  end.

Section Chat.
Variable server : fetch_call -> fetch_result.

(** [AIChat.handleSend]: the state once the reply has been appended, and the
    requests sent. There is no such state ([None]) when the reply updater
    throws, the render that runs it failing with it, or when the reply is
    outside the component's types. *)
Definition handleSend (st : ChatState) (clock : SendClock)
  : option (ChatState * list event) :=
  if blank (trim (input st)) then Some (st, [])
  else
    let userMessage :=
      {| id := Z_to_string (user_now clock); text := input st;
         sender := user; timestamp := user_date clock |} in
    let call :=
      FetchCall "/api/chat" (JObj (obj_of [("message", Some (JStr (input st)))])) in
    match reply_text (server call) with
    | UpdaterThrows | NotAString => None
    | Appends answer =>
        Some ({| messages :=
                   (messages st ++ [userMessage]
                    ++ [{| id := Z_to_string (reply_now clock + 1); text := answer;
                           sender := ai; timestamp := reply_date clock |}])%list;
                 input := ""; chat_loading := false;
                 isExpanded := isExpanded st |},
              [Fetch call])
    end.
End Chat.

End Components.

(** ** src/app/page.tsx and the wiring of the application *)

Module App.
Import JS.

(** [Home.handleAIMessage]: the updater of [aiMessages]. *)
Definition handleAIMessage (message : string) (prev : list string) : list string :=
  (prev ++ [message])%list.

(** One [onAIMessage(message)] and the render it causes: [aiMessages] grows
    and [AIChat]'s effect runs on the new list. *)
Definition post (message : string) (now_id now_date : Z)
    (page : list string * list Components.Message)
  : list string * list Components.Message :=
  let aiMessages := handleAIMessage message page.1 in
  (aiMessages,
   Components.systemMessages_effect aiMessages now_id now_date page.2).

Section Wiring.
Variable env_PYTHON_API_URL : option string.
Variable backend : fetch_call -> fetch_result.

(** The browser's [fetch] of one of the application's own routes: the route
    handler gets the body the component serialised, and [response.json()]
    parses the body of whatever response it returned, whatever its status.
    Any other path is not served as JSON. *)
Definition served (call : fetch_call) : fetch_result :=
  let handled (e : Route.endpoint) :=
    Parsed (Route.resp_body
              (Route.reply
                 (Route.POST env_PYTHON_API_URL backend e (Some (body call))))) in
  if String.eqb (url call) "/api/search" then handled Route.Search
  else if String.eqb (url call) "/api/findme" then handled Route.FindMe
  else if String.eqb (url call) "/api/chat" then handled Route.Chat
  else JsonThrows "SyntaxError".

(** The requests that reach the backend when the browser makes this call. *)
Definition forwarded (call : fetch_call) : list fetch_call :=
  if String.eqb (url call) "/api/search" then
    Route.sent (Route.POST env_PYTHON_API_URL backend Route.Search (Some (body call)))
  else if String.eqb (url call) "/api/findme" then
    Route.sent (Route.POST env_PYTHON_API_URL backend Route.FindMe (Some (body call)))
  else if String.eqb (url call) "/api/chat" then
    Route.sent (Route.POST env_PYTHON_API_URL backend Route.Chat (Some (body call)))
  else [].
End Wiring.

End App.

(** ** The Match Scorer *)

Module Matcher.
Local Open Scope Q_scope.

(** Modelled from the spec: the RequirementProfile of §3 (the scorer's code,
    backend/rag/matcher.py, is not among the sources). A criterion the user
    left out is [None]. *)
Record RequirementProfile := {
  degree : string;
  field : string;
  max_tuition : option Q;
  gpa : option Q;
  country : string;
  scholarship : bool
}.

(** Modelled from the spec: the attributes of a ProgramRecord (§3) that the
    scorer reads. *)
Record ProgramRecord := {
  normalized_name : string;
  rec_degree : string;
  rec_field : string;
  tuition : Q;
  gpa_required : Q
}.

(** The four sub-scores, named as in [ScoreBreakdown] of FindForMeTab.tsx. *)
Record ScoreBreakdown := {
  semantic_similarity : Q;
  budget_fit : Q;
  gpa_fit : Q;
  field_match : Q
}.

(** Modelled from the spec: the MatchResult of §3 (record, composite score,
    breakdown). *)
Record MatchResult := {
  matched : ProgramRecord;
  match_score : Z;
  score_breakdown : ScoreBreakdown
}.

(** Modelled from the spec: the validation error of §4.3. *)
Inductive ScoreError := ValidationError.

(** Modelled from the spec: a sub-score is kept within 0..100 (§3, "each
    0-100"; §4.3, "not below 0", "floored at 0"). *)
Definition clamp (q : Q) : Q := Qmax 0 (Qmin 100 q).

(** Modelled from the spec: [round] of §4.3, to the nearest integer, halves
    upwards. *)
Definition round (q : Q) : Z := Qfloor (q + (1 # 2)).

(** Modelled from the spec: 0.40*semantic + 0.25*budget + 0.20*gpa +
    0.15*field (§4.3; the README's "Match Score Formula"). *)
Definition weighted (b : ScoreBreakdown) : Q :=
  (40 # 100) * semantic_similarity b + (25 # 100) * budget_fit b
  + (20 # 100) * gpa_fit b + (15 # 100) * field_match b.

Section Scorer.
(** The embedding capability: its similarity of profile and record, scaled to
    0..100. *)
Variable similarity : RequirementProfile -> ProgramRecord -> Q.
(** The penalty curve past the tuition ceiling: [budget_curve max tuition]. *)
Variable budget_curve : Q -> Q -> Q.
(** The factor by which the GPA sub-score falls with the missing GPA. *)
Variable gpa_slope : Q.
(** The graded score of fields that match only in part. *)
Variable field_partial : string -> string -> Q.

(** Modelled from the spec: the budget sub-score of §4.3: 100 without a
    ceiling or with the tuition within it, the penalty curve past it. *)
Definition budget_score (p : RequirementProfile) (r : ProgramRecord) : Q :=
  match max_tuition p with
  | None => 100
  | Some ceiling =>
      if Qle_bool (tuition r) ceiling then 100
      else clamp (budget_curve ceiling (tuition r))
  end.

(** Modelled from the spec: the GPA sub-score of §4.3: 100 when the user
    qualifies, falling in proportion to the gap otherwise. *)
Definition gpa_score (p : RequirementProfile) (r : ProgramRecord) : Q :=
  match gpa p with
  | None => 100
  | Some g =>
      if Qle_bool (gpa_required r) g then 100
      else clamp (100 - gpa_slope * (gpa_required r - g))
  end.

(** Modelled from the spec: the field sub-score of §4.3: 100 on a
    case-insensitive exact match, the graded score otherwise. *)
Definition field_score (p : RequirementProfile) (r : ProgramRecord) : Q :=
  if String.eqb (PyStr.lower (field p)) (PyStr.lower (rec_field r)) then 100
  else clamp (field_partial (field p) (rec_field r)).

(** Modelled from the spec: the malformed profile §4.3 names, a negative
    GPA. *)
Definition malformed (p : RequirementProfile) : bool :=
  match gpa p with
  | Some g => negb (Qle_bool 0 g)
  | None => false
  end.

(** Modelled from the spec: the Match Scorer [score(profile, record)] of
    §4.3, whose code (backend/rag/matcher.py) is not among the sources. What
    the spec leaves open (the embedding similarity, the penalty curve, the
    GPA factor, the partial field score) is a parameter of the section. A
    criterion the profile omits scores the neutral 100 and the weights stay
    fixed: the default §9 names, and the README's formula; the
    exclude-and-renormalise variant that §4.3 also mentions is not
    modelled. *)
Definition score (p : RequirementProfile) (r : ProgramRecord)
  : ScoreError + MatchResult :=
  if malformed p then inl ValidationError
  else
    let b := {| semantic_similarity := similarity p r;
                budget_fit := budget_score p r;
                gpa_fit := gpa_score p r;
                field_match := field_score p r |} in
    inr {| matched := r; match_score := round (weighted b);
           score_breakdown := b |}.
End Scorer.

End Matcher.

(** * Properties *)

Open Scope list_scope.

(** ** The Query Normalizer *)

Section PyStrFacts.
Import PyStr.

Ltac by_cases_on_char c :=
  destruct c as [[] [] [] [] [] [] [] []]; vm_compute; reflexivity.

Lemma lower_char_idem (c : ascii) : lower_char (lower_char c) = lower_char c.
Proof. by_cases_on_char c. Qed.

Lemma is_space_lower_char (c : ascii) : is_space (lower_char c) = is_space c.
Proof. by_cases_on_char c. Qed.

Lemma lower_idem (s : string) : lower (lower s) = lower s.
Proof.
  induction s as [|c s IH]; simpl; [reflexivity|].
  now rewrite lower_char_idem, IH.
Qed.

Lemma lstrip_lower (s : string) : lstrip (lower s) = lower (lstrip s).
Proof.
  induction s as [|c s IH]; simpl; [reflexivity|].
  rewrite is_space_lower_char. destruct (is_space c); [exact IH|reflexivity].
Qed.

Lemma rstrip_lower (s : string) : rstrip (lower s) = lower (rstrip s).
Proof.
  induction s as [|c s IH]; simpl; [reflexivity|].
  rewrite IH, is_space_lower_char.
  destruct (rstrip s); simpl; [destruct (is_space c)|]; reflexivity.
Qed.

Lemma strip_lower (s : string) : strip (lower s) = lower (strip s).
Proof. unfold strip. now rewrite lstrip_lower, rstrip_lower. Qed.

Lemma lstrip_no_lead (s : string) : no_lead (lstrip s).
Proof.
  induction s as [|c s IH]; simpl; [exact I|].
  destruct (is_space c) eqn:E; [exact IH|exact E].
Qed.

Lemma lstrip_fixed (s : string) : no_lead s -> lstrip s = s.
Proof. destruct s as [|c s]; simpl; [reflexivity|]. now intros ->. Qed.

Lemma rstrip_no_lead (s : string) : no_lead s -> no_lead (rstrip s).
Proof.
  destruct s as [|c s]; simpl; [exact id|]. intros E.
  destruct (rstrip s); simpl; [rewrite E|]; exact E.
Qed.

Lemma rstrip_cons (c : ascii) (s : string) :
  rstrip (String c s)
  = match rstrip s with
    | EmptyString => if is_space c then EmptyString else String c EmptyString
    | r => String c r
    end.
Proof. reflexivity. Qed.

Lemma rstrip_idem (s : string) : rstrip (rstrip s) = rstrip s.
Proof.
  induction s as [|c s IH]; [reflexivity|].
  rewrite rstrip_cons. destruct (rstrip s) as [|d r] eqn:E.
  - destruct (is_space c) eqn:Ec; [reflexivity|].
    rewrite rstrip_cons. simpl. now rewrite Ec.
  - rewrite rstrip_cons, IH. reflexivity.
Qed.

Lemma strip_idem (s : string) : strip (strip s) = strip s.
Proof.
  unfold strip.
  rewrite (lstrip_fixed (rstrip (lstrip s))).
  - apply rstrip_idem.
  - apply rstrip_no_lead, lstrip_no_lead.
Qed.

(** Lower-casing and stripping again changes nothing. *)
Lemma strip_lower_fixed (s : string) :
  strip (lower (strip (lower s))) = strip (lower s).
Proof. now rewrite strip_lower, strip_idem, <- strip_lower, lower_idem. Qed.
End PyStrFacts.

Section NormalizerFacts.
Import PyStr MongoHandler.
Variable table : gmap string string.

Lemma normalize_with_idem :
  expansions_normal table -> forall x,
  normalize_with table (normalize_with table x) = normalize_with table x.
Proof.
  intros Hexp x. unfold normalize_with at 2 3.
  destruct (table !! strip (lower x)) as [e|] eqn:E.
  - exact (Hexp _ _ E).
  - unfold normalize_with. rewrite strip_lower_fixed. now rewrite E.
Qed.
End NormalizerFacts.

Lemma abbreviations_lookup (k e : string) :
MongoHandler.abbreviations !! k = Some e ->
(k, e) ∈ [("mit", "massachusetts institute of technology");
          ("ucla", "university of california los angeles");
          ("usc", "university of southern california")].
Proof.
unfold MongoHandler.abbreviations. intros H.
repeat (apply lookup_insert_Some in H as [[<- <-]|[_ H]]; [set_solver|]).
now rewrite lookup_empty in H.
Qed.

Lemma abbreviations_normal :
MongoHandler.expansions_normal MongoHandler.abbreviations.
Proof.
intros k e H. apply abbreviations_lookup in H.
repeat (apply elem_of_cons in H as [H|H]; [injection H as -> ->; vm_compute; reflexivity|]).
now apply elem_of_nil in H.
Qed.

(** C2. The name normalizer is idempotent: normalizing a normalized name
  gives the same name again. *)
Theorem normalize_name_idempotent (x : string) :
MongoHandler.normalize_name (MongoHandler.normalize_name x)
= MongoHandler.normalize_name x.
Proof. apply normalize_with_idem, abbreviations_normal. Qed.

(** C3. [normalize_name] returns the dictionary's expansion when the
  lower-cased, stripped name is one of its keys, and the lower-cased,
  stripped name itself otherwise; the empty name gives the empty name. The
  function is total: it has a result on every string. *)
Theorem normalize_name_spec (name : string) :
let key := PyStr.strip (PyStr.lower name) in
(((key ∈ dom MongoHandler.abbreviations)
  /\ MongoHandler.abbreviations !! key = Some (MongoHandler.normalize_name name))
 \/ ((key ∉ dom MongoHandler.abbreviations)
     /\ MongoHandler.normalize_name name = key))
/\ MongoHandler.normalize_name "" = "".
Proof.
intros key. split; [|vm_compute; reflexivity].
unfold MongoHandler.normalize_name, MongoHandler.normalize_with. fold key.
destruct (MongoHandler.abbreviations !! key) as [e|] eqn:E.
- left. split; [|reflexivity]. apply elem_of_dom. now exists e.
- right. split; [|reflexivity]. now apply not_elem_of_dom.
Qed.

(** ** The Record Store Gateway *)

Section StoreFacts.
Import MongoHandler.
Variable regex_search : string -> string -> bool.

Lemma holds_at_equals (m : gmap string value) (k w : string) :
  holds_at regex_search m k (Equals w) = true <-> m !! k = Some (VStr w).
Proof.
  unfold holds_at. destruct (m !! k) as [[s| | |]|]; simpl;
    try (split; intros; discriminate).
  rewrite String.eqb_eq. split; [now intros ->|now intros [= ->]].
Qed.

Lemma holds_at_regex (m : gmap string value) (k p : string) :
  holds_at regex_search m k (Regex p) = true
  <-> exists s, m !! k = Some (VStr s) /\ regex_search p s = true.
Proof.
  unfold holds_at. destruct (m !! k) as [[s| | |]|]; simpl;
    try (split; [intros; discriminate|intros (? & ? & _); discriminate]).
  split; [intros H; now exists s|now intros (s' & [= ->] & H)].
Qed.

Lemma matches_exact (n d f : string) (doc : document) :
  matches regex_search (exact_query n d f) doc = true
  <-> exact_hit regex_search n d f doc.
Proof.
  unfold matches, exact_query, exact_hit, degree_field_hit. simpl.
  rewrite !andb_true_iff, !holds_at_equals, holds_at_regex. tauto.
Qed.

Lemma matches_fuzzy (n d f : string) (doc : document) :
  matches regex_search (fuzzy_query n d f) doc = true
  <-> fuzzy_hit regex_search n d f doc.
Proof.
  unfold matches, fuzzy_query, fuzzy_hit, degree_field_hit. simpl.
  rewrite !andb_true_iff, !holds_at_equals, !holds_at_regex. tauto.
Qed.

(** [find_one] gives the first match, and misses only when nothing
    matches. *)
Lemma find_one_Some (q : query) (c : collection) (doc : document) :
  find_one regex_search q c = Some doc ->
  doc ∈ docs c /\ matches regex_search q doc = true.
Proof.
  unfold find_one. intros H. apply find_some in H as [Hin Hm].
  split; [now apply list_elem_of_In|exact Hm].
Qed.

Lemma find_one_None (q : query) (c : collection) :
  find_one regex_search q c = None <->
  forall doc, doc ∈ docs c -> matches regex_search q doc = false.
Proof.
  unfold find_one. split.
  - intros H doc Hin. apply (find_none _ _ H). now apply list_elem_of_In.
  - intros H. destruct (List.find _ _) as [doc|] eqn:E; [|reflexivity].
    apply find_some in E as [Hin Hm]. apply list_elem_of_In in Hin.
    rewrite (H _ Hin) in Hm. discriminate.
Qed.
End StoreFacts.

Section LookupFacts.
Import MongoHandler.
Variable regex_search : string -> string -> bool.

End LookupFacts.

Section PcreFacts.
Import Pcre.








End PcreFacts.




Section UpsertFacts.
Import MongoHandler.
Variable regex_search : string -> string -> bool.

Lemma update_one_miss (q : query) (nd : gmap string value) (l : list document) :
  Forall (fun x => matches regex_search q x = false) l ->
  update_one regex_search q nd l = (l, false).
Proof.
  induction 1 as [|x l Hx _ IH]; simpl; [reflexivity|].
  now rewrite Hx, IH.
Qed.

Lemma update_one_first (q : query) (nd : gmap string value)
    (l1 l2 : list document) (d : document) :
  Forall (fun x => matches regex_search q x = false) l1 ->
  matches regex_search q d = true ->
  (update_one regex_search q nd (l1 ++ d :: l2)).1
  = l1 ++ Document (_id d) (nd ∪ doc_fields d) :: l2.
Proof.
  intros H Hd. induction H as [|x l Hx _ IH]; simpl.
  - now rewrite Hd.
  - rewrite Hx. simpl. now rewrite IH.
Qed.

Lemma update_one_length (q : query) (nd : gmap string value) (l : list document) :
  length (update_one regex_search q nd l).1 = length l.
Proof.
  induction l as [|x l IH]; simpl; [reflexivity|].
  destruct (matches regex_search q x); simpl; [reflexivity|now rewrite IH].
Qed.

(** C4, as the code has it. [save_program] always inserts: the collection
    grows by one document, placed last, which holds the given fields
    stamped with the creation time, the last-update time and the normalized
    name, whatever the collection already holds. [update_program] never
    inserts: with no document matching the key the collection is
    unchanged; otherwise the first matching document gets the new fields
    and the last-update time, keeps its id and its other fields, and all
    other documents are untouched. *)
Theorem save_inserts_update_replaces
    (c : collection) (data : gmap string value) (t_created t_updated : Z)
    (name : string) :
  get_university data = Some name ->
  (exists stamped,
     save_program data t_created t_updated c
     = Some (Collection (docs c ++ [Document (next_id c) stamped])
                        (N.succ (next_id c)), next_id c)
     /\ stamped !! "created_at" = Some (VDate t_created)
     /\ stamped !! "updated_at" = Some (VDate t_updated)
     /\ stamped !! "normalized_name" = Some (VStr (normalize_name name))
     /\ forall k, k ≠ "created_at" -> k ≠ "updated_at" ->
                  k ≠ "normalized_name" -> stamped !! k = data !! k)
  /\ forall (university degree field : string) (new_data : gmap string value)
            (now : Z),
       let q := exact_query (normalize_name university) degree field in
       let updated :=
         update_program regex_search c university degree field new_data now in
       length (docs updated.1) = length (docs c)
       /\ (find_one regex_search q c = None -> updated = (c, false))
       /\ forall l1 d l2,
            docs c = l1 ++ d :: l2 ->
            Forall (fun x => matches regex_search q x = false) l1 ->
            matches regex_search q d = true ->
            updated.1
            = Collection
                (l1 ++ Document (_id d)
                         (<["updated_at" := VDate now]> new_data ∪ doc_fields d)
                    :: l2)
                (next_id c).
Proof.
  intros Hu. split.
  - unfold save_program.
    assert (Hu' : get_university
                    (<["updated_at" := VDate t_updated]>
                       (<["created_at" := VDate t_created]> data)) = Some name).
    { unfold get_university in *. now rewrite !lookup_insert_ne by done. }
    rewrite Hu'. eexists. split; [reflexivity|].
    repeat split.
    + now rewrite lookup_insert_ne, lookup_insert_ne, lookup_insert_eq by done.
    + now rewrite lookup_insert_ne, lookup_insert_eq by done.
    + now rewrite lookup_insert_eq.
    + intros k H1 H2 H3. now rewrite !lookup_insert_ne by done.
  - intros university degree field new_data now q updated. subst updated.
    unfold update_program. fold q. simpl. split; [|split].
    + apply update_one_length.
    + intros Hnone. pose proof (proj1 (find_one_None _ _ _) Hnone) as Hall.
      rewrite update_one_miss.
      * simpl. now destruct c.
      * apply Forall_forall. exact Hall.
    + intros l1 d l2 -> Hl1 Hd. now rewrite update_one_first.
Qed.
End UpsertFacts.

(** C4 as stated does not hold: saving a record for MIT, Master, Computer
    Science into the empty store and then saving such a record again leaves
    two documents with the same (normalized name, degree, field) key. *)
Lemma save_program_twice_same_key :
exists c1 c2 id1 id2,
  MongoHandler.save_program MongoHandler.mit_program 10 10
    MongoHandler.empty_collection = Some (c1, id1)
  /\ MongoHandler.unique_keys c1
  /\ MongoHandler.save_program MongoHandler.mit_program 20 20 c1 = Some (c2, id2)
  /\ length (MongoHandler.docs c2) = 2%nat
  /\ ~ MongoHandler.unique_keys c2.
Proof.
do 4 eexists. split; [reflexivity|]. split.
- unfold MongoHandler.unique_keys. simpl. apply NoDup_singleton.
- split; [reflexivity|]. split; [reflexivity|].
  unfold MongoHandler.unique_keys. simpl. intros H.
  apply NoDup_cons in H as [H _]. apply H. apply list_elem_of_singleton.
  vm_compute. reflexivity.
Qed.

Lemma save_inserts_update_replaces_witness :
exists stamped,
  MongoHandler.save_program MongoHandler.mit_program 10 11
    MongoHandler.empty_collection
  = Some (MongoHandler.Collection [MongoHandler.Document 0 stamped] 1, 0%N)
  /\ stamped !! "normalized_name"
     = Some (MongoHandler.VStr "massachusetts institute of technology").
Proof.
destruct (save_inserts_update_replaces MongoHandler.literal_search_i
            MongoHandler.empty_collection MongoHandler.mit_program 10 11 "MIT"
            eq_refl) as [(stamped & Hs & _ & _ & Hn & _) _].
exists stamped. split; [exact Hs|exact Hn].
Defined.

(** ** The route handlers *)

Section RouteFacts.
Import JS Route.
Variable env : option string.
Variable backend : fetch_call -> fetch_result.

(** Each handler either relays the backend's parsed body with status 200,
    after exactly one request, or answers 500 with its fallback body. *)
Lemma POST_search_cases (request : option json) :
  let o := POST_search env backend request in
  (exists call data,
      sent o = [call] /\ backend call = Parsed data
      /\ reply o = Response 200 data)
  \/ reply o
     = Response 500
         (JObj (<["source" := JStr "error"]> {[ "error" := JStr backend_down ]})).
Proof.
  destruct request as [body|]; [|right; reflexivity].
  unfold POST_search, try_catch, bind, request_json, destructure.
  destruct body; try (right; reflexivity);
    (cbn [fst snd]; unfold fetch_json;
     match goal with
     | |- context [backend ?c] =>
         destruct (backend c) as [e|e|data] eqn:E;
         [right; reflexivity|right; reflexivity|
          left; exists c, data; repeat split; exact E]
     end).
Qed.

Lemma POST_findme_cases (request : option json) :
  let o := POST_findme env backend request in
  (exists call data,
      sent o = [call] /\ backend call = Parsed data
      /\ reply o = Response 200 data)
  \/ reply o = Response 500 (JObj {[ "error" := JStr backend_down ]}).
Proof.
  destruct request as [body|]; [|right; reflexivity].
  unfold POST_findme, try_catch, bind, request_json.
  cbn [fst snd]. unfold fetch_json.
  match goal with
  | |- context [backend ?c] =>
      destruct (backend c) as [e|e|data] eqn:E;
      [right; reflexivity|right; reflexivity|
       left; exists c, data; repeat split; exact E]
  end.
Qed.

Lemma POST_chat_cases (request : option json) :
  let o := POST_chat env backend request in
  (exists call data,
      sent o = [call] /\ backend call = Parsed data
      /\ reply o = Response 200 data)
  \/ reply o = Response 500 (JObj {[ "response" := JStr chat_down ]}).
Proof.
  destruct request as [body|]; [|right; reflexivity].
  unfold POST_chat, try_catch, bind, request_json, destructure.
  destruct body; try (right; reflexivity);
    (cbn [fst snd]; unfold fetch_json;
     match goal with
     | |- context [backend ?c] =>
         destruct (backend c) as [e|e|data] eqn:E;
         [right; reflexivity|right; reflexivity|
          left; exists c, data; repeat split; exact E]
     end).
Qed.
End RouteFacts.

(** C6, as the code has it. Each handler either relays the backend's JSON
  body unchanged with status 200 (so the body has a [source] only if the
  backend put one there), or returns its own failure body with status 500.
  Of the three failure bodies only the search handler's carries
  [source = "error"]; the findme and chat failure bodies have no [source]
  property. *)
Theorem source_on_search_failure_only
  (env : option string) (backend : JS.fetch_call -> JS.fetch_result)
  (request : option JS.json) :
let relayed (o : Route.outcome) :=
  exists call data,
    Route.sent o = [call] /\ backend call = JS.Parsed data
    /\ Route.reply o = Route.Response 200 data in
let failed_with (o : Route.outcome) (source : JS.jsval) :=
  Route.status (Route.reply o) = 500%Z
  /\ JS.get_prop (Some (Route.resp_body (Route.reply o))) "source"
     = Some source in
(relayed (Route.POST_search env backend request)
 \/ failed_with (Route.POST_search env backend request) (Some (JS.JStr "error")))
/\ (relayed (Route.POST_findme env backend request)
    \/ failed_with (Route.POST_findme env backend request) None)
/\ (relayed (Route.POST_chat env backend request)
    \/ failed_with (Route.POST_chat env backend request) None).
Proof.
intros relayed failed_with. subst relayed failed_with. cbv beta.
split; [|split].
- destruct (POST_search_cases env backend request) as [H|H]; [now left|].
  right. rewrite H. split; reflexivity.
- destruct (POST_findme_cases env backend request) as [H|H]; [now left|].
  right. rewrite H. split; reflexivity.
- destruct (POST_chat_cases env backend request) as [H|H]; [now left|].
  right. rewrite H. split; reflexivity.
Qed.

(** C6 as stated does not hold: with the backend unreachable, the bodies
  returned by the findme and chat handlers carry no source discriminator. *)
Lemma findme_chat_failure_without_source :
~ Route.carries_source
    (Route.resp_body (Route.reply
       (Route.POST_findme None Route.unreachable (Some (JS.JObj ∅)))))
/\ ~ Route.carries_source
      (Route.resp_body (Route.reply
         (Route.POST_chat None Route.unreachable
            (Some (JS.JObj {[ "message" := JS.JStr "hi" ]}))))).
Proof.
split; intros (s & H & _); vm_compute in H; discriminate H.
Qed.

(** C7, as the code has it. When the forwarded backend call fails (fetch
    throws, or the body cannot be parsed), each handler answers with status
    500 and a JSON object: the search and findme bodies have a string under
    [error]; the chat body has a string under [response] and no [error]. *)
Theorem backend_failure_gives_500
    (env : option string) (backend : JS.fetch_call -> JS.fetch_result)
    (e : Route.endpoint) (request : option JS.json) :
  (forall call data,
      call ∈ Route.sent (Route.POST env backend e request) ->
      backend call ≠ JS.Parsed data) ->
  let r := Route.reply (Route.POST env backend e request) in
  Route.status r = 500%Z
  /\ match e with
     | Route.Search | Route.FindMe =>
         Route.has_string_field "error" (Route.resp_body r)
     | Route.Chat =>
         Route.has_string_field "response" (Route.resp_body r)
         /\ ~ Route.has_string_field "error" (Route.resp_body r)
     end.
Proof.
  intros Hfail r. subst r.
  assert (Hno : forall o call data,
             o = Route.POST env backend e request ->
             Route.sent o = [call] -> backend call = JS.Parsed data -> False).
  { intros o call data -> Hs E. apply (Hfail call data); [|exact E].
    rewrite Hs. apply list_elem_of_singleton. reflexivity. }
  destruct e; unfold Route.POST in *.
  - destruct (POST_search_cases env backend request) as [(call & data & Hs & E & _)|H].
    + destruct (Hno _ _ _ eq_refl Hs E).
    + rewrite H. split; [reflexivity|]. eexists _, _. split; reflexivity.
  - destruct (POST_findme_cases env backend request) as [(call & data & Hs & E & _)|H].
    + destruct (Hno _ _ _ eq_refl Hs E).
    + rewrite H. split; [reflexivity|]. eexists _, _. split; reflexivity.
  - destruct (POST_chat_cases env backend request) as [(call & data & Hs & E & _)|H].
    + destruct (Hno _ _ _ eq_refl Hs E).
    + rewrite H. split; [reflexivity|]. split.
      * eexists _, _. split; reflexivity.
      * intros (m & s & [= <-] & Hm). vm_compute in Hm. discriminate Hm.
Qed.

Lemma backend_failure_gives_500_witness :
  let r := Route.reply
             (Route.POST None Route.unreachable Route.Search (Some (JS.JObj ∅))) in
  Route.status r = 500%Z /\ Route.has_string_field "error" (Route.resp_body r).
Proof.
  apply (backend_failure_gives_500 None Route.unreachable Route.Search
           (Some (JS.JObj ∅))).
  intros call data _. discriminate.
Defined.

(** C7 as stated does not hold: with the backend unreachable the chat
  handler answers 500 with a body that has no [error] field. *)
Lemma chat_failure_without_error_field :
let r := Route.reply
           (Route.POST_chat None Route.unreachable
              (Some (JS.JObj {[ "message" := JS.JStr "hi" ]}))) in
Route.status r = 500%Z /\ ~ Route.has_string_field "error" (Route.resp_body r).
Proof.
split; [reflexivity|].
intros (m & s & E & Hm). vm_compute in E. injection E as <-.
vm_compute in Hm. discriminate Hm.
Qed.

Lemma POST_chat_sent (env : option string)
  (backend : JS.fetch_call -> JS.fetch_result) (b : JS.json) :
Route.sent (Route.POST_chat env backend (Some b))
= match JS.get_prop (Some b) "message" with
  | None => []
  | Some message =>
      [JS.FetchCall (Route.PYTHON_API_URL env ++ "/api/chat")%string
         (JS.JObj (JS.obj_of [("message", message)]))]
  end.
Proof.
destruct b; try reflexivity;
  unfold Route.POST_chat, Route.try_catch, Route.bind, Route.request_json,
    Route.destructure, Route.fetch_json; cbn [fst snd];
  match goal with
  | |- context [backend ?c] => destruct (backend c)
  end; reflexivity.
Qed.

(** C9. The chat handler forwards the [message] field only: two inbound
  bodies with the same [message] make it send the same request (or none)
  to the backend. *)
Theorem chat_forwards_message_only
  (env : option string) (backend : JS.fetch_call -> JS.fetch_result)
  (b1 b2 : JS.json) :
JS.get_prop (Some b1) "message" = JS.get_prop (Some b2) "message" ->
Route.sent (Route.POST_chat env backend (Some b1))
= Route.sent (Route.POST_chat env backend (Some b2)).
Proof. intros H. now rewrite !POST_chat_sent, H. Qed.

Lemma chat_forwards_message_only_witness :
Route.sent (Route.POST_chat None Route.unreachable
  (Some (JS.JObj (<["message" := JS.JStr "hi"]> {[ "role" := JS.JStr "admin" ]}))))
= Route.sent (Route.POST_chat None Route.unreachable
    (Some (JS.JObj {[ "message" := JS.JStr "hi" ]}))).
Proof.
apply (chat_forwards_message_only None Route.unreachable). reflexivity.
Defined.

(** ** The view components *)

(** C8. With a required input missing (the university or the field empty in
  the search form, the field empty in the find-me form) the submit handler
  sends no request and leaves its state, the result included, as it was. *)
Theorem missing_input_blocks_submit
  (server : JS.fetch_call -> JS.fetch_result) (null_read_shown : string -> string)
  (st : Components.SearchState) (fs : Components.FindState) :
(Components.university st = "" \/ Components.field st = "" ->
 let r := Components.handleSearch server null_read_shown st in
 r.1 = st /\ Components.result r.1 = Components.result st
 /\ forall call, Components.Fetch call ∉ r.2)
/\ (Components.req_field (Components.requirements fs) = "" ->
    let r := Components.handleFind server null_read_shown fs in
    r.1 = fs /\ Components.results r.1 = Components.results fs
    /\ forall call, Components.Fetch call ∉ r.2).
Proof.
split.
- intros H. unfold Components.handleSearch.
  assert (E : Components.blank (Components.university st)
              || Components.blank (Components.field st) = true).
  { destruct H as [-> | ->]; [reflexivity|apply orb_true_r]. }
  rewrite E. simpl. repeat split.
  intros call Hin. apply list_elem_of_singleton in Hin. discriminate Hin.
- intros H. unfold Components.handleFind. rewrite H. simpl. repeat split.
  intros call Hin. apply list_elem_of_singleton in Hin. discriminate Hin.
Qed.

Lemma missing_input_blocks_submit_witness :
let st := {| Components.university := ""; Components.degree := Components.Master;
             Components.field := "Physics"; Components.question := "tuition";
             Components.fetchAll := false; Components.loading := false;
             Components.result := JS.JNull |} in
(Components.handleSearch (fun c => JS.Parsed (JS.body c)) (fun k => k) st).1 = st.
Proof.
intros st.
exact (proj1 (proj1 (missing_input_blocks_submit
                       (fun c => JS.Parsed (JS.body c)) (fun k => k) st
                       {| Components.requirements :=
                            {| Components.req_degree := "Master";
                               Components.req_field := "";
                               Components.maxTuition := "";
                               Components.minGPA := "";
                               Components.englishTest := "TOEFL";
                               Components.englishScore := "";
                               Components.country := "USA";
                               Components.preferScholarship := false |};
                          Components.find_loading := false;
                          Components.results := JS.JArr [];
                          Components.totalInDatabase := JS.JNum 0 |})
                (or_introl eq_refl))).
Defined.

Lemma includes_true (texts : list string) (s : string) :
Components.includes texts s = true <-> s ∈ texts.
Proof.
unfold Components.includes. rewrite existsb_exists. split.
- intros (t & Hin & E). apply String.eqb_eq in E as ->.
  now apply list_elem_of_In.
- intros Hin. exists s. split; [now apply list_elem_of_In|apply String.eqb_refl].
Qed.

Lemma text_among (prev : list Components.Message) (s : string) :
s ∈ List.map Components.text prev
<-> exists m, m ∈ prev /\ Components.text m = s.
Proof.
rewrite list_elem_of_In, in_map_iff. split.
- intros (m & E & Hin). exists m. split; [now apply list_elem_of_In|exact E].
- intros (m & Hin & E). exists m. split; [exact E|now apply list_elem_of_In].
Qed.

(** C10. On a non-empty list of system messages the effect looks at the last
  one: if no message of the transcript has its text, exactly one message
  with that text, sent by the AI, is appended; if some message already has
  that text, the transcript is unchanged. Running the effect again on the
  result changes nothing. *)
Theorem system_message_added_once
  (systemMessages : list string) (now_id now_date : Z)
  (prev : list Components.Message) :
systemMessages ≠ [] ->
let next := Components.systemMessages_effect systemMessages now_id now_date prev in
exists lastMessage,
  last systemMessages = Some lastMessage
  /\ ((forall m, m ∈ prev -> Components.text m ≠ lastMessage) ->
      exists m, next = prev ++ [m]
                /\ Components.text m = lastMessage
                /\ Components.sender m = Components.ai)
  /\ ((exists m, m ∈ prev /\ Components.text m = lastMessage) -> next = prev)
  /\ forall t1 t2,
       Components.systemMessages_effect systemMessages t1 t2 next = next.
Proof.
intros Hne next. subst next. unfold Components.systemMessages_effect.
destruct (last systemMessages) as [lastMessage|] eqn:E.
2: { apply last_None in E. contradiction. }
exists lastMessage. split; [reflexivity|].
unfold Components.add_system_message.
destruct (Components.includes (List.map Components.text prev) lastMessage) eqn:I.
- apply includes_true, text_among in I. simpl. repeat split.
  + intros Hno. destruct I as (m & Hin & Ht). destruct (Hno m Hin Ht).
  + intros t1 t2.
    assert (I' : Components.includes (List.map Components.text prev) lastMessage
                 = true) by now apply includes_true, text_among.
    now rewrite I'.
- simpl. split; [|split].
  + intros _. eexists. repeat split.
  + intros Hex. apply text_among, includes_true in Hex. congruence.
  + intros t1 t2.
    assert (I' : Components.includes
                   (List.map Components.text
                      (prev ++ [{| Components.id := JS.Z_to_string now_id;
                                   Components.text := lastMessage;
                                   Components.sender := Components.ai;
                                   Components.timestamp := now_date |}]))
                   lastMessage = true).
    { apply includes_true, text_among. eexists. split.
      - apply elem_of_app. right. apply list_elem_of_singleton. reflexivity.
      - reflexivity. }
    now rewrite I'.
Qed.

Lemma system_message_added_once_witness :
exists lastMessage,
  last ["Searching..."; "Found data from database (2024)"] = Some lastMessage
  /\ lastMessage = "Found data from database (2024)".
Proof.
destruct (system_message_added_once
            ["Searching..."; "Found data from database (2024)"] 1700000000000
            1700000000000 [] ltac:(discriminate)) as (m & E & _).
exists m. split; [exact E|]. simpl in E. now injection E as <-.
Defined.

(** ** The Match Scorer *)

Section ScorerFacts.
Import Matcher.
Local Open Scope Q_scope.

Lemma clamp_range (q : Q) : 0 <= clamp q <= 100.
Proof.
  unfold clamp. split.
  - apply Q.le_max_l.
  - apply Q.max_lub; [discriminate|apply Q.le_min_l].
Qed.

Lemma hundred_range : 0 <= 100 <= 100.
Proof. split; discriminate. Qed.

Lemma weighted_range (b : ScoreBreakdown) :
  0 <= semantic_similarity b <= 100 -> 0 <= budget_fit b <= 100 ->
  0 <= gpa_fit b <= 100 -> 0 <= field_match b <= 100 ->
  0 <= weighted b <= 100.
Proof. unfold weighted. intros. split; lra. Qed.

Lemma round_range (q : Q) : 0 <= q <= 100 -> (0 <= round q <= 100)%Z.
Proof.
  intros [H0 H1]. unfold round. split.
  - change 0%Z with (Qfloor 0). apply Qfloor_resp_le. lra.
  - change 100%Z with (Qfloor (100 + (1 # 2))). apply Qfloor_resp_le. lra.
Qed.

Variable similarity : RequirementProfile -> ProgramRecord -> Q.
Variable budget_curve : Q -> Q -> Q.
Variable gpa_slope : Q.
Variable field_partial : string -> string -> Q.

Lemma budget_score_range p r : 0 <= budget_score budget_curve p r <= 100.
Proof.
  unfold budget_score. destruct (max_tuition p); [|apply hundred_range].
  destruct (Qle_bool _ _); [apply hundred_range|apply clamp_range].
Qed.

Lemma gpa_score_range p r : 0 <= gpa_score gpa_slope p r <= 100.
Proof.
  unfold gpa_score. destruct (gpa p); [|apply hundred_range].
  destruct (Qle_bool _ _); [apply hundred_range|apply clamp_range].
Qed.

Lemma field_score_range p r : 0 <= field_score field_partial p r <= 100.
Proof.
  unfold field_score.
  destruct (String.eqb _ _); [apply hundred_range|apply clamp_range].
Qed.

(** C1. For every well-formed profile and every record, the scorer returns
    a result whose composite score is
    round(0.40*semantic + 0.25*budget + 0.20*gpa + 0.15*field) over the four
    sub-scores of its breakdown, and the composite lies in 0..100. *)
Theorem composite_is_weighted_sum (p : RequirementProfile) (r : ProgramRecord) :
  0 <= similarity p r <= 100 ->
  malformed p = false ->
  exists m,
    score similarity budget_curve gpa_slope field_partial p r = inr m
    /\ match_score m
       = round ((40 # 100) * semantic_similarity (score_breakdown m)
                + (25 # 100) * budget_fit (score_breakdown m)
                + (20 # 100) * gpa_fit (score_breakdown m)
                + (15 # 100) * field_match (score_breakdown m))
    /\ (0 <= match_score m <= 100)%Z.
Proof.
  intros Hs Hv. unfold score. rewrite Hv. eexists. split; [reflexivity|].
  split; [reflexivity|]. simpl. apply round_range, weighted_range; simpl.
  - exact Hs.
  - apply budget_score_range.
  - apply gpa_score_range.
  - apply field_score_range.
Qed.
End ScorerFacts.

Lemma composite_is_weighted_sum_witness :
let p := {| Matcher.degree := "Master"; Matcher.field := "Computer Science";
            Matcher.max_tuition := Some (50000 # 1);
            Matcher.gpa := Some (35 # 10);
            Matcher.country := "USA"; Matcher.scholarship := false |} in
let r := {| Matcher.normalized_name := "massachusetts institute of technology";
            Matcher.rec_degree := "Master";
            Matcher.rec_field := "computer science";
            Matcher.tuition := 60000 # 1; Matcher.gpa_required := 3 # 1 |} in
exists m,
  Matcher.score (fun _ _ => 80 # 1) (fun ceiling t => (100 # 1) - (t - ceiling) / (1000 # 1))%Q
    (50 # 1) (fun _ _ => 50 # 1) p r = inr m
  /\ (0 <= Matcher.match_score m <= 100)%Z.
Proof.
intros p r.
destruct (composite_is_weighted_sum (fun _ _ => 80 # 1)
            (fun ceiling t => (100 # 1) - (t - ceiling) / (1000 # 1))%Q
            (50 # 1) (fun _ _ => 50 # 1) p r) as (m & E & _ & R).
- split; unfold Qle; simpl; lia.
- reflexivity.
- exists m. split; [exact E|exact R].
Defined.

(** ** Checks on concrete inputs *)

Example normalize_MIT :
MongoHandler.normalize_name "  MIT " = "massachusetts institute of technology".
Proof. vm_compute. reflexivity. Qed.

Example normalize_Harvard :
MongoHandler.normalize_name "  Harvard  " = "harvard".
Proof. vm_compute. reflexivity. Qed.

Example normalize_inner_space :
MongoHandler.normalize_name "New  York U" = "new  york u".
Proof. vm_compute. reflexivity. Qed.

(** End-to-end scenario 1 of the spec: after MIT's record is saved, a search
  for "MIT" hits on the exact query alone. *)
Example find_MIT_after_save :
exists c id fields,
  MongoHandler.save_program MongoHandler.mit_program 10 10
    MongoHandler.empty_collection = Some (c, id)
  /\ MongoHandler.find_program MongoHandler.literal_search_i c
       " mit" "Master" "computer"
     = (Some fields,
        [MongoHandler.exact_query "massachusetts institute of technology"
           "Master" "computer"])
  /\ fields !! "university" = Some (MongoHandler.VStr "MIT").
Proof. do 3 eexists. repeat split; vm_compute; reflexivity. Qed.

(** The fuzzy query is what finds a record by a part of its name. *)
Example find_fuzzy_by_part_of_name :
exists c id,
  MongoHandler.save_program MongoHandler.mit_program 10 10
    MongoHandler.empty_collection = Some (c, id)
  /\ length (MongoHandler.find_program MongoHandler.literal_search_i c
               "Institute of Tech" "Master" "computer").2 = 2%nat
  /\ (MongoHandler.find_program MongoHandler.literal_search_i c
        "Institute of Tech" "Master" "computer").1 ≠ None
  /\ MongoHandler.find_program MongoHandler.literal_search_i c
       "Caltech" "Master" "computer"
     = (None,
        [MongoHandler.exact_query "caltech" "Master" "computer";
         MongoHandler.fuzzy_query "caltech" "Master" "computer"]).
Proof.
  do 2 eexists. split; [reflexivity|]. split; [vm_compute; reflexivity|].
  split; [|vm_compute; reflexivity].
  intros H.
  match type of H with
  | ?found = None =>
      assert (E : match found with Some _ => true | None => false end = true)
        by (vm_compute; reflexivity)
  end.
  rewrite H in E. discriminate E.
Qed.

(** The search handler's request to the backend: [fetchAll] picks the
  endpoint, an absent [forceRefresh] goes out as [false]. *)
Example search_forwarding :
Route.sent (Route.POST_search None Route.unreachable
  (Some (JS.JObj (<["university" := JS.JStr "MIT"]>
                  {[ "fetchAll" := JS.JBool true ]}))))
= [JS.FetchCall "http://localhost:5000/api/fetch_all"
     (JS.JObj (<["university" := JS.JStr "MIT"]>
               {[ "force_refresh" := JS.JBool false ]}))].
Proof. vm_compute. reflexivity. Qed.

(** With every input given, the search form does send its request. *)
Example search_form_submits :
let st := {| Components.university := "MIT"; Components.degree := Components.Master;
             Components.field := "Physics"; Components.question := "tuition";
             Components.fetchAll := false; Components.loading := true;
             Components.result := JS.JNull |} in
let r := Components.handleSearch
           (fun _ => JS.Parsed (JS.JObj (<["source" := JS.JStr "cache"]>
                                         {[ "data_year" := JS.JNum 2024 ]})))
           (fun k => k) st in
List.map Components.is_fetch r.2 = [false; true; false]
/\ List.last r.2 (Components.Fetch (JS.FetchCall "" JS.JNull))
   = Components.AIMessage (JS.JStr "Found data from database (2024)")
/\ Components.loading r.1 = false.
Proof. repeat split; vm_compute; reflexivity. Qed.

(** * Further properties of the code *)

(** ** [normalize_name] *)

Section PaddingFacts.
Import PyStr.

Lemma lower_app (s t : string) : lower (s ++ t)%string = (lower s ++ lower t)%string.
Proof. induction s as [|c s IH]; simpl; [reflexivity|now rewrite IH]. Qed.

Lemma all_space_lower (s : string) : all_space (lower s) = all_space s.
Proof.
  induction s as [|c s IH]; simpl; [reflexivity|].
  now rewrite is_space_lower_char, IH.
Qed.

Lemma lstrip_pad (pad s : string) :
  all_space pad = true -> lstrip (pad ++ s)%string = lstrip s.
Proof.
  induction pad as [|c pad IH]; simpl; [reflexivity|].
  intros H. apply andb_true_iff in H as [Hc Hp]. rewrite Hc. now apply IH.
Qed.

Lemma rstrip_all_space (pad : string) : all_space pad = true -> rstrip pad = "".
Proof.
  induction pad as [|c pad IH]; simpl; [reflexivity|].
  intros H. apply andb_true_iff in H as [Hc Hp]. now rewrite (IH Hp), Hc.
Qed.

Lemma rstrip_pad (s pad : string) :
  all_space pad = true -> rstrip (s ++ pad)%string = rstrip s.
Proof.
  intros H. induction s as [|c s IH]; simpl.
  - now apply rstrip_all_space.
  - now rewrite IH.
Qed.

Lemma strip_pad_right (s pad : string) :
  all_space pad = true -> strip (s ++ pad)%string = strip s.
Proof.
  intros H. unfold strip. induction s as [|c s IH]; simpl.
  - assert (E : lstrip pad = "").
    { clear -H. induction pad as [|c pad IH]; simpl; [reflexivity|].
      apply andb_true_iff in H as [Hc Hp]. rewrite Hc. now apply IH. }
    change (rstrip (lstrip pad) = ""). now rewrite E.
  - destruct (is_space c); [exact IH|].
    change (rstrip (String c s ++ pad)%string = rstrip (String c s)).
    now apply rstrip_pad.
Qed.

Lemma strip_pad (left s right : string) :
  all_space left = true -> all_space right = true ->
  strip (left ++ s ++ right)%string = strip s.
Proof.
  intros Hl Hr. unfold strip. rewrite (lstrip_pad _ _ Hl).
  now apply strip_pad_right.
Qed.
End PaddingFacts.

(** X1. [normalize_name] ignores letter case and surrounding whitespace:
    lower-casing a name, stripping it, or padding it with whitespace on
    either side does not change its normalized form. *)
Theorem normalize_name_ignores_case_and_padding (x left right : string) :
  PyStr.all_space left = true -> PyStr.all_space right = true ->
  MongoHandler.normalize_name (PyStr.lower x) = MongoHandler.normalize_name x
  /\ MongoHandler.normalize_name (PyStr.strip x) = MongoHandler.normalize_name x
  /\ MongoHandler.normalize_name (left ++ x ++ right)%string
     = MongoHandler.normalize_name x.
Proof.
  intros Hl Hr. unfold MongoHandler.normalize_name, MongoHandler.normalize_with.
  rewrite lower_idem.
  assert (E1 : PyStr.strip (PyStr.lower (PyStr.strip x))
               = PyStr.strip (PyStr.lower x)).
  { now rewrite strip_lower, strip_idem, <- strip_lower. }
  assert (E2 : PyStr.strip (PyStr.lower (left ++ x ++ right)%string)
               = PyStr.strip (PyStr.lower x)).
  { rewrite !lower_app. apply strip_pad; now rewrite all_space_lower. }
  rewrite E1, E2. repeat split.
Qed.

Lemma normalize_name_ignores_case_and_padding_witness :
  MongoHandler.normalize_name ("  " ++ "MIT" ++ " ")%string
  = MongoHandler.normalize_name "MIT".
Proof.
  apply (normalize_name_ignores_case_and_padding "MIT" "  " " "); reflexivity.
Defined.

(** X2. A normalized name is in canonical form: it has no upper-case letter
    left and no whitespace at either end. *)
Theorem normalize_name_canonical (x : string) :
  PyStr.lower (MongoHandler.normalize_name x) = MongoHandler.normalize_name x
  /\ PyStr.strip (MongoHandler.normalize_name x) = MongoHandler.normalize_name x.
Proof.
  unfold MongoHandler.normalize_name, MongoHandler.normalize_with.
  destruct (MongoHandler.abbreviations !! _) as [e|] eqn:E.
  - apply abbreviations_lookup in E.
    repeat (apply elem_of_cons in E as [E|E];
            [injection E as _ ->; split; vm_compute; reflexivity|]).
    now apply elem_of_nil in E.
  - split.
    + now rewrite <- strip_lower, lower_idem.
    + apply strip_idem.
Qed.

(** ** The store operations *)

Section StoreMoreFacts.
Import MongoHandler.
Variable regex_search : string -> string -> bool.

Lemma save_program_stamped (c : collection) (data : gmap string value)
    (t_created t_updated : Z) (name : string) :
  get_university data = Some name ->
  save_program data t_created t_updated c
  = Some (Collection
            (docs c ++ [Document (next_id c) (stamped data t_created t_updated name)])
            (N.succ (next_id c)), next_id c).
Proof.
  intros Hu. unfold save_program.
  assert (Hu' : get_university
                  (<["updated_at" := VDate t_updated]>
                     (<["created_at" := VDate t_created]> data)) = Some name).
  { unfold get_university in *. now rewrite !lookup_insert_ne by done. }
  now rewrite Hu'.
Qed.

Lemma stamped_lookup (data : gmap string value) (tc tu : Z) (name k : string) :
  k ≠ "created_at" -> k ≠ "updated_at" -> k ≠ "normalized_name" ->
  stamped data tc tu name !! k = data !! k.
Proof. intros. unfold stamped. now rewrite !lookup_insert_ne by done. Qed.

Lemma find_split (P : document -> bool) (l1 l2 : list document) :
  List.find P (l1 ++ l2)
  = match List.find P l1 with
    | Some x => Some x
    | None => List.find P l2
    end.
Proof.
  induction l1 as [|x l1 IH]; simpl; [reflexivity|].
  destruct (P x); [reflexivity|exact IH].
Qed.

Lemma find_first (P : document -> bool) (l : list document) (d : document) :
  List.find P l = Some d ->
  exists l1 l2, l = l1 ++ d :: l2 /\ Forall (fun x => P x = false) l1 /\ P d = true.
Proof.
  induction l as [|x l IH]; simpl; [discriminate|].
  destruct (P x) eqn:Ex.
  - intros [= ->]. exists [], l. auto.
  - intros H. destruct (IH H) as (l1 & l2 & -> & Hl1 & Hd).
    exists (x :: l1), l2. auto.
Qed.

(** X3. What [save_program] stores is found again: a lookup for the saved
    university (in any spelling with the same normalized name), the saved
    degree and a pattern matching the saved field hits on the exact query
    alone; and when the store held no exact match before, the hit is the
    record just saved. *)
Theorem saved_program_is_found
    (c : collection) (data : gmap string value) (t_created t_updated : Z)
    (u d f u' f' : string) :
  data !! "university" = Some (VStr u) ->
  data !! "degree" = Some (VStr d) ->
  data !! "field" = Some (VStr f) ->
  normalize_name u' = normalize_name u ->
  regex_search f' f = true ->
  exists c' inserted,
    save_program data t_created t_updated c = Some (c', inserted)
    /\ (find_program regex_search c' u' d f').2
       = [exact_query (normalize_name u') d f']
    /\ is_Some (find_program regex_search c' u' d f').1
    /\ ((forall doc, doc ∈ docs c ->
           ~ exact_hit regex_search (normalize_name u') d f' doc) ->
        (find_program regex_search c' u' d f').1
        = Some (stamped data t_created t_updated u)).
Proof.
  intros Hu Hd Hf Hn Hr.
  assert (Hg : get_university data = Some u) by (unfold get_university; now rewrite Hu).
  eexists _, _. split; [apply (save_program_stamped _ _ _ _ _ Hg)|].
  set (new := Document (next_id c) (stamped data t_created t_updated u)).
  assert (Hnew : matches regex_search (exact_query (normalize_name u') d f') new = true).
  { apply matches_exact. unfold exact_hit, degree_field_hit, new. simpl.
    split; [|split].
    - unfold stamped. now rewrite lookup_insert_eq, Hn.
    - now rewrite stamped_lookup by done.
    - exists f. split; [now rewrite stamped_lookup by done|exact Hr]. }
  unfold find_program, find_one. cbn [docs]. fold new. rewrite find_split.
  destruct (List.find _ (docs c)) as [old|] eqn:E.
  - cbn [fst snd]. repeat split; [eauto|]. intros Hno.
    apply find_some in E as [Hin Hm]. apply matches_exact in Hm.
    destruct (Hno old (proj2 (list_elem_of_In _ _) Hin) Hm).
  - cbn [List.find]. rewrite Hnew. cbn [fst snd]. repeat split; eauto.
Qed.

Lemma delete_one_miss (q : query) (l : list document) :
  Forall (fun x => matches regex_search q x = false) l ->
  delete_one regex_search q l = (l, false).
Proof.
  induction 1 as [|x l Hx _ IH]; simpl; [reflexivity|]. now rewrite Hx, IH.
Qed.

Lemma delete_one_first (q : query) (l1 l2 : list document) (d : document) :
  Forall (fun x => matches regex_search q x = false) l1 ->
  matches regex_search q d = true ->
  delete_one regex_search q (l1 ++ d :: l2) = (l1 ++ l2, true).
Proof.
  intros H Hd. induction H as [|x l Hx _ IH]; simpl.
  - now rewrite Hd.
  - now rewrite Hx, IH.
Qed.

(** X4. [delete_program] removes exactly the document the exact query finds
    first, keeps all others in their order, and reports [True]; when the
    exact query finds nothing the store is left as it was and the report is
    [False]. *)
Theorem delete_program_removes_first_exact_match
    (c : collection) (university degree field : string) :
  let q := exact_query (normalize_name university) degree field in
  let deleted := delete_program regex_search c university degree field in
  match find_one regex_search q c with
  | None => deleted = (c, false)
  | Some d =>
      exists l1 l2,
        docs c = l1 ++ d :: l2
        /\ Forall (fun x => matches regex_search q x = false) l1
        /\ deleted = (Collection (l1 ++ l2) (next_id c), true)
  end.
Proof.
  intros q deleted. subst deleted. unfold delete_program. fold q.
  destruct (find_one regex_search q c) as [d|] eqn:E.
  - apply find_first in E as (l1 & l2 & Hl & Hl1 & Hd).
    exists l1, l2. rewrite Hl. repeat split; [exact Hl1|].
    now rewrite delete_one_first.
  - pose proof (proj1 (find_one_None _ _ _) E) as Hall.
    rewrite delete_one_miss by (apply Forall_forall; exact Hall).
    now destruct c.
Qed.

(** X5. A record that [find_program] reaches only through its fuzzy query is
    out of reach of [update_program] and [delete_program]: whenever the exact
    query of a lookup found nothing, updating or deleting with the same
    arguments changes nothing and reports [False]. *)
Theorem fuzzy_match_is_not_updated_or_deleted
    (c : collection) (university degree field : string)
    (new_data : gmap string value) (now : Z) :
  length (find_program regex_search c university degree field).2 = 2%nat ->
  update_program regex_search c university degree field new_data now = (c, false)
  /\ delete_program regex_search c university degree field = (c, false).
Proof.
  unfold find_program, update_program, delete_program.
  destruct (find_one regex_search _ c) as [d|] eqn:E; [discriminate|]. intros _.
  pose proof (proj1 (find_one_None _ _ _) E) as Hall.
  rewrite update_one_miss, delete_one_miss by (apply Forall_forall; exact Hall).
  now destruct c.
Qed.

End StoreMoreFacts.

Lemma saved_program_is_found_witness :
  exists c' inserted,
    MongoHandler.save_program MongoHandler.mit_program 10 11
      MongoHandler.empty_collection = Some (c', inserted)
    /\ (MongoHandler.find_program MongoHandler.literal_search_i c'
          " mit " "Master" "computer").2
       = [MongoHandler.exact_query "massachusetts institute of technology"
            "Master" "computer"].
Proof.
  destruct (saved_program_is_found MongoHandler.literal_search_i
              MongoHandler.empty_collection MongoHandler.mit_program
              10 11 "MIT" "Master" "Computer Science" " mit " "computer"
              eq_refl eq_refl eq_refl eq_refl eq_refl)
    as (c' & i & Hs & Hq & _).
  exists c', i. split; [exact Hs|exact Hq].
Defined.

Lemma fuzzy_match_is_not_updated_or_deleted_witness :
  let c := MongoHandler.Collection
             [MongoHandler.Document 0
                (MongoHandler.stamped MongoHandler.mit_program 10 10 "MIT")] 1 in
  MongoHandler.delete_program MongoHandler.literal_search_i c
    "Institute of Tech" "Master" "computer" = (c, false).
Proof.
  intros c.
  apply (fuzzy_match_is_not_updated_or_deleted MongoHandler.literal_search_i c
           "Institute of Tech" "Master" "computer" ∅ 0).
  reflexivity.
Defined.

Section ListingFacts.
Import MongoHandler.
Variable regex_search : string -> string -> bool.


Lemma matches_any_iff (p : string) (doc : document) :
  matches_any regex_search p doc = true
  <-> exists k s, k ∈ ["university"; "field"; "official_name"]
                  /\ doc_fields doc !! k = Some (VStr s)
                  /\ regex_search p s = true.
Proof.
  unfold matches_any. rewrite !orb_true_iff, !holds_at_regex. split.
  - intros [[(s & E & H)|(s & E & H)]|(s & E & H)].
    + exists "university", s. split; [set_solver|auto].
    + exists "field", s. split; [set_solver|auto].
    + exists "official_name", s. split; [set_solver|auto].
  - intros (k & s & Hk & E & H).
    repeat (apply elem_of_cons in Hk as [->|Hk]; [eauto 6|]).
    now apply elem_of_nil in Hk.
Qed.

Lemma search_programs_elem (c : collection) (p : string) (fs : gmap string value) :
  fs ∈ search_programs regex_search c p
  <-> exists doc,
        doc ∈ docs c /\ fs = doc_fields doc
        /\ exists k s, k ∈ ["university"; "field"; "official_name"]
                       /\ doc_fields doc !! k = Some (VStr s)
                       /\ regex_search p s = true.
Proof.
  unfold search_programs. rewrite list_elem_of_In, in_map_iff. split.
  - intros (doc & <- & Hin). apply filter_In in Hin as [Hin Hm].
    exists doc. split; [now apply list_elem_of_In|]. split; [reflexivity|].
    now apply matches_any_iff.
  - intros (doc & Hin & -> & Hm). exists doc. split; [reflexivity|].
    apply filter_In. split; [now apply list_elem_of_In|].
    now apply matches_any_iff.
Qed.

(** X7. [search_programs] returns exactly the stored records that have a
    string under [university], [field] or [official_name] matching the
    pattern, and returns them in the order of [get_all_programs]. *)
Theorem search_programs_selects_matching (c : collection) (p : string) :
  (forall fs,
      fs ∈ search_programs regex_search c p
      <-> exists doc,
            doc ∈ docs c /\ fs = doc_fields doc
            /\ exists k s, k ∈ ["university"; "field"; "official_name"]
                           /\ doc_fields doc !! k = Some (VStr s)
                           /\ regex_search p s = true)
  /\ sublist (search_programs regex_search c p) (get_all_programs c).
Proof.
  split; [intros fs; apply search_programs_elem|].
  unfold search_programs, get_all_programs.
  induction (docs c) as [|x l IH]; simpl; [constructor|].
  destruct (matches_any regex_search p x); simpl; now constructor.
Qed.

(** X8. A saved record is listed and searchable: after [save_program],
    [get_all_programs] is the old listing followed by the stored record, and
    [search_programs] returns that record for every pattern that matches its
    university. *)
Theorem saved_program_is_listed
    (c : collection) (data : gmap string value) (t_created t_updated : Z)
    (u p : string) :
  data !! "university" = Some (VStr u) ->
  regex_search p u = true ->
  exists c' inserted,
    save_program data t_created t_updated c = Some (c', inserted)
    /\ get_all_programs c'
       = get_all_programs c ++ [stamped data t_created t_updated u]
    /\ stamped data t_created t_updated u ∈ search_programs regex_search c' p.
Proof.
  intros Hu Hp.
  assert (Hg : get_university data = Some u) by (unfold get_university; now rewrite Hu).
  eexists _, _. split; [apply (save_program_stamped _ _ _ _ _ Hg)|].
  split.
  - unfold get_all_programs. cbn [docs]. now rewrite map_app.
  - apply search_programs_elem.
    exists (Document (next_id c) (stamped data t_created t_updated u)).
    split; [|split; [reflexivity|]].
    + cbn [docs]. apply elem_of_app. right. apply list_elem_of_singleton. reflexivity.
    + exists "university", u. cbn [doc_fields].
      split; [set_solver|]. split; [|exact Hp].
      now rewrite stamped_lookup by done.
Qed.

Lemma update_one_pointwise (q : query) (nd : gmap string value) (l : list document) :
  Forall2 (fun d d' =>
             _id d' = _id d
             /\ forall k, nd !! k = None -> doc_fields d' !! k = doc_fields d !! k)
          l (update_one regex_search q nd l).1.
Proof.
  induction l as [|x l IH]; simpl; [constructor|].
  destruct (matches regex_search q x); simpl.
  - constructor.
    + split; [reflexivity|]. intros k Hk. cbn [doc_fields].
      rewrite lookup_union, Hk. now destruct (doc_fields x !! k).
    + apply Forall2_same_length_lookup. split; [reflexivity|].
      intros i d d' E1 E2. rewrite E1 in E2. injection E2 as <-. auto.
  - constructor; [auto|exact IH].
Qed.

(** X9. [update_program] only ever writes the keys it is given: every
    document keeps its place and its id, and every key that is neither in
    [new_data] nor [updated_at] (the creation time, for one) keeps its
    value. *)
Theorem update_program_touches_given_keys_only
    (c : collection) (university degree field : string)
    (new_data : gmap string value) (now : Z) :
  let c' := (update_program regex_search c university degree field new_data now).1 in
  List.map _id (docs c') = List.map _id (docs c)
  /\ forall i d',
       docs c' !! i = Some d' ->
       exists d,
         docs c !! i = Some d
         /\ forall k, k ≠ "updated_at" -> new_data !! k = None ->
                      doc_fields d' !! k = doc_fields d !! k.
Proof.
  intros c'. subst c'. unfold update_program. cbn [fst docs].
  pose proof (update_one_pointwise
                (exact_query (normalize_name university) degree field)
                (<["updated_at" := VDate now]> new_data) (docs c)) as H.
  split.
  - induction H as [|d d' l l' [Hid _] _ IH]; simpl; [reflexivity|].
    now rewrite Hid, IH.
  - intros i d' Hd'.
    destruct (Forall2_lookup_r _ _ _ _ _ H Hd') as (d & Hd & _ & Hk).
    exists d. split; [exact Hd|]. intros k Hne Hnone. apply Hk.
    now rewrite lookup_insert_ne by done.
Qed.
End ListingFacts.


Lemma saved_program_is_listed_witness :
  exists c' inserted,
    MongoHandler.save_program MongoHandler.mit_program 10 11
      MongoHandler.empty_collection = Some (c', inserted)
    /\ MongoHandler.stamped MongoHandler.mit_program 10 11 "MIT"
       ∈ MongoHandler.search_programs MongoHandler.literal_search_i c' "mi".
Proof.
  destruct (saved_program_is_listed MongoHandler.literal_search_i
              MongoHandler.empty_collection MongoHandler.mit_program
              10 11 "MIT" "mi" eq_refl eq_refl)
    as (c' & i & Hs & _ & Hin).
  exists c', i. split; [exact Hs|exact Hin].
Defined.

(** ** backend/api_server.py: [search] *)

Section SearchRouteFacts.
Import MongoHandler.
Variable regex_search : string -> string -> bool.
Variable extract_all_info : string -> string -> string -> option (gmap string value).
Variable extract_info :
  string -> string -> string -> string -> option (gmap string value).
Variable question : option string.

Lemma find_program_Some (c : collection) (u d f : string) (fs : gmap string value) :
  (find_program regex_search c u d f).1 = Some fs ->
  exists doc,
    doc ∈ docs c /\ fs = doc_fields doc
    /\ any_hit regex_search (normalize_name u) d f doc.
Proof.
  unfold find_program.
  destruct (find_one regex_search _ c) as [d1|] eqn:E1.
  - intros [= <-]. apply find_one_Some in E1 as [Hin Hm].
    apply matches_exact in Hm. exists d1. split; [exact Hin|].
    split; [reflexivity|now left].
  - destruct (find_one regex_search (fuzzy_query _ _ _) c) as [d2|] eqn:E2;
      [|discriminate].
    intros [= <-]. apply find_one_Some in E2 as [Hin Hm].
    apply matches_fuzzy in Hm. exists d2. split; [exact Hin|].
    split; [reflexivity|now right].
Qed.

Lemma find_program_None (c : collection) (u d f : string) :
  (find_program regex_search c u d f).1 = None ->
  forall doc, doc ∈ docs c -> ~ any_hit regex_search (normalize_name u) d f doc.
Proof.
  unfold find_program.
  destruct (find_one regex_search _ c) as [d1|] eqn:E1; [discriminate|].
  destruct (find_one regex_search (fuzzy_query _ _ _) c) as [d2|] eqn:E2;
    [discriminate|].
  intros _ doc Hin [H|H].
  - apply matches_exact in H.
    rewrite (proj1 (find_one_None _ _ _) E1 doc Hin) in H. discriminate.
  - apply matches_fuzzy in H.
    rewrite (proj1 (find_one_None _ _ _) E2 doc Hin) in H. discriminate.
Qed.

Lemma hit_not_empty (u d f : string) (doc : document) :
  any_hit regex_search (normalize_name u) d f doc -> doc_fields doc ≠ ∅.
Proof.
  intros H E.
  assert (Hd : doc_fields doc !! "degree" = Some (VStr d))
    by (destruct H as [(_ & Hd & _)|(_ & Hd & _)]; exact Hd).
  rewrite E, lookup_empty in Hd. discriminate.
Qed.

Lemma search_on_hit
    (c : collection) (data : ApiServer.SearchBody) (t_created t_updated : Z)
    (u : string) :
  ApiServer.university data = Some u ->
  let d := default "Master" (ApiServer.degree data) in
  let f := ApiServer.field data in
  (exists doc, doc ∈ docs c /\ any_hit regex_search (normalize_name u) d f doc) ->
  exists doc,
    doc ∈ docs c /\ any_hit regex_search (normalize_name u) d f doc
    /\ ApiServer.search regex_search extract_all_info extract_info question
         c data t_created t_updated
       = ApiServer.Outcome c []
           (inr (ApiServer.Cached (doc_fields doc)
                   (doc_fields doc !! "data_year")
                   (doc_fields doc !! "official_name"))).
Proof.
  intros Hu d f (doc0 & Hin0 & Hhit0). unfold ApiServer.search.
  rewrite Hu. fold d. fold f.
  destruct (find_program regex_search c u d f).1 as [fs|] eqn:E.
  - apply find_program_Some in E as (doc & Hin & -> & Hhit).
    rewrite bool_decide_eq_false_2 by (eapply hit_not_empty; exact Hhit).
    exists doc. repeat split; assumption.
  - destruct (find_program_None _ _ _ _ E doc0 Hin0 Hhit0).
Qed.


(** X10. A request the store can answer is served from it: when some stored
    document matches the request (a missing degree counting as "Master"),
    [search] replies with source "cache" and the fields of such a document,
    does not call the extractor and leaves the store as it was. *)
Theorem search_hit_is_served_from_cache
    (c : collection) (data : ApiServer.SearchBody) (t_created t_updated : Z)
    (u : string) :
  ApiServer.university data = Some u ->
  let d := default "Master" (ApiServer.degree data) in
  let f := ApiServer.field data in
  (exists doc, doc ∈ docs c /\ any_hit regex_search (normalize_name u) d f doc) ->
  let o := ApiServer.search regex_search extract_all_info extract_info question
             c data t_created t_updated in
  ApiServer.store o = c /\ ApiServer.asked o = []
  /\ exists doc r,
       doc ∈ docs c /\ any_hit regex_search (normalize_name u) d f doc
       /\ r = ApiServer.Cached (doc_fields doc) (doc_fields doc !! "data_year")
                (doc_fields doc !! "official_name")
       /\ ApiServer.answer o = inr r /\ ApiServer.source r = "cache".
Proof.
  intros Hu d f Hex o. subst o.
  destruct (search_on_hit c data t_created t_updated u Hu Hex)
    as (doc & Hin & Hhit & ->).
  repeat split. eexists doc, _. repeat split; eauto.
Qed.



Lemma save_program_grows (data : gmap string value) (tc tu : Z)
    (c c' : collection) (inserted : N) :
  save_program data tc tu c = Some (c', inserted) ->
  exists fs, docs c' = docs c ++ [Document inserted fs].
Proof.
  unfold save_program. destruct (get_university _); [|discriminate].
  intros [= <- <-]. eexists. reflexivity.
Qed.

(** X13. [search] asks the extractor at most once, replies from the cache
    only, and writes at most one document: a reply, when one is sent, has
    source "cache", and then the store is as it was and the extractor was
    not called; a request that ends in [AttributeError], [NameError] or an
    extractor failure leaves the store as it was; a request that ends in the
    [TypeError] of [jsonify] has called the extractor once and has added
    exactly one document, which stays in the store. *)
Theorem search_writes_only_what_it_returns
    (c : collection) (data : ApiServer.SearchBody) (t_created t_updated : Z) :
  let o := ApiServer.search regex_search extract_all_info extract_info question
             c data t_created t_updated in
  (length (ApiServer.asked o) <= 1)%nat
  /\ match ApiServer.answer o with
     | inr r =>
         ApiServer.source r = "cache"
         /\ ApiServer.store o = c /\ ApiServer.asked o = []
     | inl ApiServer.TypeError =>
         (exists saved, docs (ApiServer.store o) = docs c ++ [saved])
         /\ length (ApiServer.asked o) = 1%nat
     | inl _ => ApiServer.store o = c
     end.
Proof.
  intros o. subst o.
  set (P := fun o : ApiServer.outcome =>
              (length (ApiServer.asked o) <= 1)%nat
              /\ match ApiServer.answer o with
                 | inr r =>
                     ApiServer.source r = "cache"
                     /\ ApiServer.store o = c /\ ApiServer.asked o = []
                 | inl ApiServer.TypeError =>
                     (exists saved, docs (ApiServer.store o) = docs c ++ [saved])
                     /\ length (ApiServer.asked o) = 1%nat
                 | inl _ => ApiServer.store o = c
                 end).
  change (P (ApiServer.search regex_search extract_all_info extract_info question
               c data t_created t_updated)).
  assert (Hcall : forall call (r : option (gmap string value)),
             P match r with
               | None => ApiServer.Outcome c [call] (inl ApiServer.ExtractorError)
               | Some fresh_data =>
                   match save_program fresh_data t_created t_updated c with
                   | None =>
                       ApiServer.Outcome c [call] (inl ApiServer.AttributeError)
                   | Some (c', inserted) =>
                       let saved :=
                         default (Document inserted fresh_data) (last (docs c')) in
                       ApiServer.Outcome c' [call]
                         (ApiServer.jsonify
                            (ApiServer.Fresh saved
                               (doc_fields saved !! "official_name")))
                   end
               end).
  { intros call [fresh|]; [|split; simpl; auto].
    destruct (save_program fresh t_created t_updated c) as [[c' i]|] eqn:S;
      [|split; simpl; auto].
    apply save_program_grows in S as (fs & S).
    split; simpl; [lia|]. split; [|reflexivity]. eexists. exact S. }
  assert (Hfs : forall u d f b,
             P (ApiServer.fetch_and_save extract_all_info extract_info
                  question c u d f b t_created t_updated)).
  { intros u d f b. unfold ApiServer.fetch_and_save. destruct b.
    - apply Hcall.
    - destruct question as [q|]; [apply Hcall|split; simpl; auto]. }
  unfold ApiServer.search.
  destruct (ApiServer.university data) as [u|]; [|split; simpl; auto].
  destruct (find_program regex_search c u _ _).1 as [fs|]; [|apply Hfs].
  destruct (bool_decide (fs = ∅)); [apply Hfs|split; simpl; auto].
Qed.
End SearchRouteFacts.

Lemma search_hit_is_served_from_cache_witness :
  let c := MongoHandler.Collection
             [MongoHandler.Document 0
                (MongoHandler.stamped MongoHandler.mit_program 10 10 "MIT")] 1 in
  let data := {| ApiServer.university := Some "mit"; ApiServer.degree := None;
                 ApiServer.field := "computer"; ApiServer.fetchAll := None |} in
  ApiServer.asked
    (ApiServer.search MongoHandler.literal_search_i (fun _ _ _ => None)
       (fun _ _ _ _ => None) None c data 20 20) = [].
Proof.
  intros c data.
  refine (proj1 (proj2 (search_hit_is_served_from_cache
                          MongoHandler.literal_search_i (fun _ _ _ => None)
                          (fun _ _ _ _ => None) None c data 20 20 "mit" eq_refl _))).
  eexists. split; [apply list_elem_of_singleton; reflexivity|].
  left. split; [reflexivity|]. split; [reflexivity|].
  exists "Computer Science". split; reflexivity.
Defined.



(** ** The route handlers: what they forward *)

Section ForwardingFacts.
Import JS Route.
Variable env : option string.
Variable backend : fetch_call -> fetch_result.

Lemma POST_search_sent (b : json) :
  sent (POST_search env backend (Some b))
  = match b with
    | JNull => []
    | _ =>
        let get k := default None (get_prop (Some b) k) in
        [FetchCall
           (PYTHON_API_URL env
            ++ (if truthy (get "fetchAll") then "/api/fetch_all" else "/api/search"))%string
           (JObj (obj_of [("university", get "university");
                          ("degree", get "degree");
                          ("field", get "field");
                          ("question", get "question");
                          ("force_refresh",
                           js_or (get "forceRefresh") (Some (JBool false)))]))]
    end.
Proof.
  destruct b; try reflexivity;
    unfold POST_search, try_catch, bind, request_json, destructure, fetch_json;
    cbn [fst snd];
    match goal with
    | |- context [backend ?c] => destruct (backend c)
    end; reflexivity.
Qed.

Lemma obj_of_snoc (props : list (string * jsval)) (k : string) (v : jsval) :
  obj_of (props ++ [(k, v)])
  = match v with
    | Some j => <[k := j]> (obj_of props)
    | None => delete k (obj_of props)
    end.
Proof. unfold obj_of. now rewrite foldl_app. Qed.

Lemma obj_of_dom (props : list (string * jsval)) (k : string) :
  k ∈ dom (obj_of props) -> k ∈ List.map fst props.
Proof.
  induction props as [|[k' v] props IH] using rev_ind; [set_solver|].
  rewrite obj_of_snoc, map_app. cbn [List.map fst].
  intros H. apply elem_of_app.
  destruct v as [j|].
  - apply dom_insert in H. apply elem_of_union in H as [H|H].
    + right. apply elem_of_singleton in H. subst k'. set_solver.
    + left. auto.
  - apply dom_delete in H. left. apply IH.
    now apply elem_of_difference in H as [H _].
Qed.

Lemma obj_of_lookup (props : list (string * jsval)) (k : string) (v : jsval) :
  NoDup (List.map fst props) -> (k, v) ∈ props -> obj_of props !! k = v.
Proof.
  induction props as [|[k' v'] props IH] using rev_ind;
    [intros _ H; now apply elem_of_nil in H|].
  rewrite map_app, obj_of_snoc. cbn [List.map fst]. intros Hnd Hin.
  apply NoDup_app in Hnd as (Hnd & Hfresh & _).
  apply elem_of_app in Hin as [Hin|Hin].
  - assert (Hne : k' ≠ k).
    { intros ->. apply (Hfresh k); [|set_solver].
      apply list_elem_of_In, in_map_iff. exists (k, v).
      split; [reflexivity|now apply list_elem_of_In]. }
    destruct v'; [rewrite lookup_insert_ne by done|rewrite lookup_delete_ne by done];
      now apply IH.
  - apply list_elem_of_singleton in Hin. injection Hin as -> ->.
    destruct v'; [apply lookup_insert_eq|apply lookup_delete_eq].
Qed.

Lemma POST_search_sent_object (b : json) :
  b ≠ JNull ->
  let get k := default None (get_prop (Some b) k) in
  sent (POST_search env backend (Some b))
  = [FetchCall
       (PYTHON_API_URL env
        ++ (if truthy (get "fetchAll") then "/api/fetch_all" else "/api/search"))%string
       (JObj (obj_of [("university", get "university");
                      ("degree", get "degree");
                      ("field", get "field");
                      ("question", get "question");
                      ("force_refresh",
                       js_or (get "forceRefresh") (Some (JBool false)))]))].
Proof. intros H get. rewrite POST_search_sent. now destruct b. Qed.

Lemma js_or_false (x : jsval) :
  exists v, js_or x (Some (JBool false)) = Some v
            /\ (v = JBool false \/ truthy (Some v) = true).
Proof.
  unfold js_or. destruct (truthy x) eqn:E.
  - destruct x as [v|]; [|discriminate]. exists v. auto.
  - exists (JBool false). auto.
Qed.

(** X14. The search handler forwards a fixed set of fields and nothing
    else: for every inbound body that is not [null] it sends exactly one
    request, to [/api/fetch_all] when [fetchAll] is truthy and to
    [/api/search] otherwise, whose body has no key besides [university],
    [degree], [field], [question] and [force_refresh]; [force_refresh] is
    always present, and is [false] unless [forceRefresh] was truthy. Two
    inbound bodies that agree on the six fields read produce the same
    request. *)
Theorem search_forwards_known_fields_only (b b' : json) :
  b ≠ JNull ->
  (exists endpoint m,
      sent (POST_search env backend (Some b))
      = [FetchCall (PYTHON_API_URL env ++ endpoint)%string (JObj m)]
      /\ endpoint = (if truthy (default None (get_prop (Some b) "fetchAll"))
                     then "/api/fetch_all" else "/api/search")
      /\ (forall k, k ∈ dom m ->
                    k ∈ ["university"; "degree"; "field"; "question";
                         "force_refresh"])
      /\ (exists v, m !! "force_refresh" = Some v
                    /\ (v = JBool false \/ truthy (Some v) = true))
      /\ forall k, k ∈ ["university"; "degree"; "field"; "question"] ->
                   m !! k = default None (get_prop (Some b) k))
  /\ ((forall k, k ∈ ["university"; "degree"; "field"; "question"; "fetchAll";
                      "forceRefresh"] ->
                 get_prop (Some b) k = get_prop (Some b') k) ->
      sent (POST_search env backend (Some b))
      = sent (POST_search env backend (Some b'))).
Proof.
  intros Hb. split.
  - rewrite (POST_search_sent_object b Hb). cbv zeta.
    eexists _, _. split; [reflexivity|]. split; [reflexivity|].
    assert (Hnd : NoDup ["university"; "degree"; "field"; "question";
                         "force_refresh"])
      by (apply NoDup_ListNoDup; repeat constructor; simpl; intuition discriminate).
    split; [|split].
    + intros k Hk. apply obj_of_dom in Hk. exact Hk.
    + destruct (js_or_false (default None (get_prop (Some b) "forceRefresh")))
        as (v & Ev & Hv).
      exists v. split; [|exact Hv]. rewrite <- Ev.
      apply obj_of_lookup; [exact Hnd|].
      do 4 apply list_elem_of_further. apply list_elem_of_here.
    + intros k Hk. apply obj_of_lookup; [exact Hnd|].
      repeat (apply elem_of_cons in Hk as [->|Hk]; [set_solver|]).
      now apply elem_of_nil in Hk.
  - intros Hsame.
    assert (Hb' : b' ≠ JNull).
    { intros ->. specialize (Hsame "university" ltac:(set_solver)).
      destruct b; try discriminate Hsame. now apply Hb. }
    rewrite (POST_search_sent_object b Hb), (POST_search_sent_object b' Hb').
    cbv zeta.
    now rewrite !(Hsame "university"), !(Hsame "degree"), !(Hsame "field"),
      !(Hsame "question"), !(Hsame "fetchAll"), !(Hsame "forceRefresh")
      by set_solver.
Qed.

(** X15. What the handlers do with a body they cannot use: when the inbound
    body is not JSON, none of them contacts the backend and each answers
    500; a JSON [null] is answered the same way by the search and chat
    handlers, while the findme handler forwards it unchanged to
    [/api/findme]. *)
Theorem unusable_body_handling :
  (forall e, sent (POST env backend e None) = []
             /\ status (reply (POST env backend e None)) = 500%Z)
  /\ (forall e, e ≠ FindMe ->
                sent (POST env backend e (Some JNull)) = []
                /\ status (reply (POST env backend e (Some JNull))) = 500%Z)
  /\ sent (POST env backend FindMe (Some JNull))
     = [FetchCall (PYTHON_API_URL env ++ "/api/findme")%string JNull].
Proof.
  split; [|split].
  - intros []; split; reflexivity.
  - intros [] H; try (split; reflexivity). now destruct H.
  - unfold POST, POST_findme, try_catch, bind, request_json, fetch_json.
    cbn [fst snd].
    match goal with
    | |- context [backend ?c] => destruct (backend c)
    end; reflexivity.
Qed.
End ForwardingFacts.

Lemma search_forwards_known_fields_only_witness :
  Route.sent (Route.POST_search None Route.unreachable
    (Some (JS.JObj (<["university" := JS.JStr "MIT"]>
                    {[ "role" := JS.JStr "admin" ]}))))
  = Route.sent (Route.POST_search None Route.unreachable
      (Some (JS.JObj {[ "university" := JS.JStr "MIT" ]}))).
Proof.
  refine (proj2 (search_forwards_known_fields_only None Route.unreachable
                   (JS.JObj (<["university" := JS.JStr "MIT"]>
                             {[ "role" := JS.JStr "admin" ]}))
                   (JS.JObj {[ "university" := JS.JStr "MIT" ]}) _) _).
  - discriminate.
  - intros k Hk.
    repeat (apply elem_of_cons in Hk as [->|Hk]; [reflexivity|]).
    now apply elem_of_nil in Hk.
Defined.

(** ** The submit handlers of the two tabs *)

Section TabFacts.
Import JS Components.
Variable server : fetch_call -> fetch_result.
Variable null_read_shown : string -> string.

Lemma blank_false (s : string) : blank s = false <-> s ≠ "".
Proof.
  unfold blank. destruct (String.eqb_spec s ""); split; congruence.
Qed.

(** X16. [handleSearch] sends a request exactly when the form is complete:
    with a university, a field and either a question or the fetch-all box,
    it makes one call, to [/api/search], between two messages, and ends
    with [loading] off and the inputs as typed; otherwise it makes no call,
    emits one message and leaves the state alone. With the fetch-all box
    ticked the question sent is "all", whatever was typed. *)
Theorem handleSearch_sends_iff_complete (st : SearchState) :
  let r := handleSearch server null_read_shown st in
  let complete :=
    university st ≠ "" /\ field st ≠ ""
    /\ (fetchAll st = true \/ question st ≠ "") in
  (complete ->
   exists before call after m,
     r.2 = [AIMessage before; Fetch call; AIMessage after]
     /\ call = FetchCall "/api/search" (JObj m)
     /\ m !! "question"
        = Some (JStr (if fetchAll st then "all" else question st))
     /\ m !! "university" = Some (JStr (university st))
     /\ m !! "field" = Some (JStr (field st))
     /\ m !! "fetchAll" = Some (JBool (fetchAll st))
     /\ r.1 = set_search_outcome st (result r.1))
  /\ (~ complete ->
      r.1 = st /\ exists message, r.2 = [AIMessage message]).
Proof.
  intros r complete. subst r complete. unfold handleSearch. split.
  - intros (Hu & Hf & Hq).
    apply blank_false in Hu, Hf. rewrite Hu, Hf. cbn [orb].
    assert (E : negb (fetchAll st) && blank (question st) = false).
    { destruct Hq as [->|Hq]; [reflexivity|].
      apply blank_false in Hq. rewrite Hq. apply andb_false_r. }
    rewrite E. cbv zeta.
    match goal with
    | |- context [server ?c] => destruct (server c) as [e|e|data]
    end;
      [| |destruct (get_prop (Some data) "source")];
      cbn [fst snd]; eexists _, _, _, _; repeat split; reflexivity.
  - intros Hnot.
    destruct (blank (university st) || blank (field st)) eqn:E1; [eauto|].
    destruct (negb (fetchAll st) && blank (question st)) eqn:E2; [eauto|].
    exfalso. apply Hnot. apply orb_false_iff in E1 as [Hu Hf].
    apply blank_false in Hu, Hf. repeat split; [assumption..|].
    apply andb_false_iff in E2 as [E2|E2].
    + left. now destruct (fetchAll st).
    + right. now apply blank_false.
Qed.

End TabFacts.

Lemma handleSearch_sends_iff_complete_witness :
  let st := {| Components.university := "MIT"; Components.degree := Components.Master;
               Components.field := "Physics"; Components.question := "";
               Components.fetchAll := false; Components.loading := false;
               Components.result := JS.JNull |} in
  (Components.handleSearch Route.unreachable (fun k => k) st).1 = st.
Proof.
  intros st.
  refine (proj1 (proj2 (handleSearch_sends_iff_complete Route.unreachable
                          (fun k => k) st) _)).
  intros (_ & _ & [H|H]); [discriminate H|now apply H].
Defined.

Section SubmitOutcomeFacts.
Import JS Components.
Variable server : fetch_call -> fetch_result.
Variable null_read_shown : string -> string.

(** X17. A submitted search never leaves the result empty or the spinner on:
    for a complete form, [handleSearch] ends with [loading] off and a result
    that is not [null]. The result is the response body when there is one,
    and [{source: "error"}] when [fetch] or the parsing throws or the body is
    [null], in which case the last message is "Error: " followed by the
    exception's text. *)
Theorem handleSearch_always_sets_a_result (st : SearchState) :
  university st ≠ "" -> field st ≠ "" ->
  fetchAll st = true \/ question st ≠ "" ->
  let r := handleSearch server null_read_shown st in
  loading r.1 = false /\ result r.1 ≠ JNull
  /\ forall call, Fetch call ∈ r.2 ->
       match server call with
       | Parsed JNull =>
           result r.1 = JObj {[ "source" := JStr "error" ]}
           /\ last r.2
              = Some (AIMessage (JStr ("Error: " ++ null_read_shown "source")))
       | Parsed data => result r.1 = data
       | FetchThrows shown | JsonThrows shown =>
           result r.1 = JObj {[ "source" := JStr "error" ]}
           /\ last r.2 = Some (AIMessage (JStr ("Error: " ++ shown)))
       end.
Proof.
  intros Hu Hf Hq r. subst r. unfold handleSearch.
  apply blank_false in Hu, Hf. rewrite Hu, Hf. cbn [orb].
  assert (E : negb (fetchAll st) && blank (question st) = false).
  { destruct Hq as [->|Hq]; [reflexivity|].
    apply blank_false in Hq. rewrite Hq. apply andb_false_r. }
  rewrite E. cbv zeta.
  match goal with
  | |- context [server ?c] => set (call := c)
  end.
  assert (Hcall : forall call', Fetch call' ∈
                    [AIMessage (JStr ("Searching for " ++ university st ++ " - "
                                      ++ degree_name (degree st) ++ " in "
                                      ++ field st ++ "..."));
                     Fetch call] -> call' = call).
  { intros call' H. apply elem_of_cons in H as [H|H]; [discriminate H|].
    apply list_elem_of_singleton in H. now injection H. }
  destruct (server call) as [e|e|data] eqn:Es.
  - cbn [fst snd]. repeat split; [discriminate|].
    intros call' H. apply elem_of_cons in H as [H|H]; [discriminate H|].
    apply elem_of_cons in H as [H|H];
      [|apply list_elem_of_singleton in H; discriminate H].
    injection H as ->. rewrite Es. split; reflexivity.
  - cbn [fst snd]. repeat split; [discriminate|].
    intros call' H. apply elem_of_cons in H as [H|H]; [discriminate H|].
    apply elem_of_cons in H as [H|H];
      [|apply list_elem_of_singleton in H; discriminate H].
    injection H as ->. rewrite Es. split; reflexivity.
  - destruct (get_prop (Some data) "source") as [source|] eqn:Eg.
    + cbn [fst snd]. assert (Hd : data ≠ JNull) by (intros ->; discriminate Eg).
      repeat split; [exact Hd|].
      intros call' H. apply elem_of_cons in H as [H|H]; [discriminate H|].
      apply elem_of_cons in H as [H|H];
        [|apply list_elem_of_singleton in H; discriminate H].
      injection H as ->. rewrite Es. now destruct data.
    + cbn [fst snd]. assert (Hd : data = JNull) by (destruct data; try discriminate Eg; reflexivity).
      subst data. repeat split; [discriminate|].
      intros call' H. apply elem_of_cons in H as [H|H]; [discriminate H|].
      apply elem_of_cons in H as [H|H];
        [|apply list_elem_of_singleton in H; discriminate H].
      injection H as ->. rewrite Es. split; reflexivity.
Qed.

(** X18. [handleUpdate] does not validate the form: whatever the inputs, it
    makes exactly one call, to [/api/search] with [fetchAll] and
    [forceRefresh] set and no [question], and ends with [loading] off. When
    the body parses, the result becomes that body and the message is "Data
    updated successfully!", whatever the body says; when [fetch] or the
    parsing throws, the previous result is kept. *)
Theorem handleUpdate_always_sends (st : SearchState) :
  let r := handleUpdate server st in
  exists call m after,
    r.2 = [AIMessage (JStr "Fetching fresh data from AI..."); Fetch call;
           AIMessage (JStr after)]
    /\ call = FetchCall "/api/search" (JObj m)
    /\ m !! "university" = Some (JStr (university st))
    /\ m !! "field" = Some (JStr (field st))
    /\ m !! "fetchAll" = Some (JBool true)
    /\ m !! "forceRefresh" = Some (JBool true)
    /\ m !! "question" = None
    /\ loading r.1 = false
    /\ match server call with
       | Parsed data => result r.1 = data /\ after = "Data updated successfully!"
       | FetchThrows shown | JsonThrows shown =>
           result r.1 = result st /\ after = ("Error updating: " ++ shown)%string
       end.
Proof.
  intros r. subst r. unfold handleUpdate. cbv zeta.
  match goal with
  | |- context [server ?c] => set (call := c)
  end.
  destruct (server call) as [e|e|data] eqn:Es; cbn [fst snd];
    eexists call, _, _; (split; [reflexivity|]); (split; [reflexivity|]);
    rewrite Es; repeat split; reflexivity.
Qed.

End SubmitOutcomeFacts.

Lemma handleSearch_always_sets_a_result_witness :
  let st := {| Components.university := "MIT"; Components.degree := Components.Master;
               Components.field := "Physics"; Components.question := "tuition";
               Components.fetchAll := false; Components.loading := true;
               Components.result := JS.JNull |} in
  Components.result (Components.handleSearch Route.unreachable (fun k => k) st).1
  ≠ JS.JNull.
Proof.
  intros st.
  refine (proj1 (proj2 (handleSearch_always_sets_a_result Route.unreachable
                          (fun k => k) st _ _ _))).
  - discriminate.
  - discriminate.
  - right. discriminate.
Defined.


(** ** Score colours *)

(** X20. The two colour helpers of the find-me tab always agree on the band
    of a score: 90 and above is emerald in both, 75 up to 90 blue, 60 up to
    75 amber, and anything below 60 slate. *)
Theorem score_colours_agree (score : Q) :
  ((90 <= score)%Q
   /\ Components.getScoreColor score = "from-emerald-500 to-teal-500"
   /\ Components.getScoreBgColor score = "bg-emerald-500")
  \/ ((75 <= score)%Q /\ (score < 90)%Q
      /\ Components.getScoreColor score = "from-blue-500 to-indigo-500"
      /\ Components.getScoreBgColor score = "bg-blue-500")
  \/ ((60 <= score)%Q /\ (score < 75)%Q
      /\ Components.getScoreColor score = "from-amber-500 to-orange-500"
      /\ Components.getScoreBgColor score = "bg-amber-500")
  \/ ((score < 60)%Q
      /\ Components.getScoreColor score = "from-slate-400 to-slate-500"
      /\ Components.getScoreBgColor score = "bg-slate-400").
Proof.
  unfold Components.getScoreColor, Components.getScoreBgColor.
  assert (Hle : forall a, Qle_bool a score = true -> (a <= score)%Q)
    by (intros a; apply Qle_bool_iff).
  assert (Hlt : forall a, Qle_bool a score = false -> (score < a)%Q).
  { intros a H. apply Qnot_le_lt. intros Hc. apply Qle_bool_iff in Hc. congruence. }
  destruct (Qle_bool 90 score) eqn:E90; [left; auto|].
  destruct (Qle_bool 75 score) eqn:E75; [right; left; auto|].
  destruct (Qle_bool 60 score) eqn:E60; [right; right; left; auto|].
  right; right; right; auto.
Qed.

(** ** Status messages and the chat transcript *)

Section TranscriptFacts.
Import Components.

Lemma add_system_message_step (m : string) (t1 t2 : Z) (prev : list Message) :
  let next := add_system_message m t1 t2 prev in
  m ∈ List.map text next
  /\ (exists extra, next = prev ++ extra
                    /\ Forall (fun x => text x = m /\ sender x = ai) extra)
  /\ (NoDup (List.map text prev) -> NoDup (List.map text next)).
Proof.
  intros next. subst next. unfold add_system_message.
  destruct (includes (List.map text prev) m) eqn:I.
  - apply includes_true in I. simpl. split; [exact I|]. split; [|auto].
    exists []. split; [now rewrite app_nil_r|constructor].
  - simpl. split; [|split].
    + rewrite map_app. apply elem_of_app. right. simpl. apply list_elem_of_here.
    + eexists. split; [reflexivity|]. repeat constructor.
    + intros Hnd. rewrite map_app. apply NoDup_app. split; [exact Hnd|].
      split; [|simpl; apply NoDup_singleton].
      intros x Hx Hin. simpl in Hin. apply list_elem_of_singleton in Hin. subst x.
      apply includes_true in Hx. congruence.
Qed.

Lemma post_step (m : string) (t1 t2 : Z) (ai : list string) (tr : list Message) :
  App.post m t1 t2 (ai, tr) = (ai ++ [m], add_system_message m t1 t2 tr).
Proof.
  unfold App.post, App.handleAIMessage, systemMessages_effect. cbn [fst snd].
  now rewrite last_snoc.
Qed.

(** X21. Status messages reach the chat, each text once: after any sequence
    of [onAIMessage] calls, each followed by its render, the page has
    recorded all of them in order, the transcript has kept every earlier
    message and only gained AI messages, every posted text is in the
    transcript, and no text posted this way appears twice provided none did
    before. *)
Theorem posted_messages_reach_chat_once
    (posts : list (string * Z * Z)) (aiMessages : list string)
    (transcript : list Message) :
  let page :=
    foldl (fun page p => App.post p.1.1 p.1.2 p.2 page) (aiMessages, transcript)
      posts in
  page.1 = aiMessages ++ List.map (fun p => p.1.1) posts
  /\ (exists extra, page.2 = transcript ++ extra
                    /\ Forall (fun x => sender x = ai) extra)
  /\ (forall p, p ∈ posts -> p.1.1 ∈ List.map text page.2)
  /\ (NoDup (List.map text transcript) -> NoDup (List.map text page.2)).
Proof.
  revert aiMessages transcript.
  induction posts as [|[[m t1] t2] posts IH]; intros ai tr page; subst page.
  - simpl. rewrite app_nil_r. repeat split; [|intros p H; now apply elem_of_nil in H|auto].
    exists []. split; [now rewrite app_nil_r|constructor].
  - cbn [foldl fst snd]. rewrite post_step.
    destruct (add_system_message_step m t1 t2 tr) as (Hm & (e1 & He1 & Hs1) & Hn1).
    destruct (IH (ai ++ [m]) (add_system_message m t1 t2 tr))
      as (Hai & (e2 & He2 & Hs2) & Hall & Hn2).
    split; [|split; [|split]].
    + rewrite Hai. cbn [List.map fst]. now rewrite <- app_assoc.
    + exists (e1 ++ e2). split.
      * now rewrite He2, He1, <- app_assoc.
      * apply Forall_app. split; [|exact Hs2].
        eapply Forall_impl; [exact Hs1|]. now intros x [_ H].
    + intros p Hp. apply elem_of_cons in Hp as [->|Hp]; [|now apply Hall].
      cbn [fst]. rewrite He2, map_app. apply elem_of_app. now left.
    + intros Hnd. apply Hn2, Hn1, Hnd.
Qed.
End TranscriptFacts.

(** ** [AIChat.handleSend] *)

Section TrimFacts.
Import JS.

Lemma trim_end_empty (s : string) : trim_end s = "" -> all_white s = true.
Proof.
  induction s as [|c s IH]; simpl; [reflexivity|].
  destruct (trim_end s); [|discriminate].
  destruct (is_white c); [|discriminate]. intros _. now apply IH.
Qed.

Lemma all_white_trim_start (s : string) :
  all_white (trim_start s) = true -> all_white s = true.
Proof.
  induction s as [|c s IH]; simpl; [reflexivity|].
  destruct (is_white c) eqn:E; [exact IH|].
  simpl. now rewrite E.
Qed.

Lemma trim_start_all_white (s : string) : all_white s = true -> trim_start s = "".
Proof.
  induction s as [|c s IH]; simpl; [reflexivity|].
  intros H. apply andb_true_iff in H as [-> H]. now apply IH.
Qed.

Lemma trim_empty_iff (s : string) : trim s = "" <-> all_white s = true.
Proof.
  unfold trim. split.
  - intros H. now apply all_white_trim_start, trim_end_empty.
  - intros H. now rewrite trim_start_all_white.
Qed.
End TrimFacts.

Lemma to_int_not_nil (z : Z) :
  Z.to_int z ≠ Decimal.Pos Decimal.Nil /\ Z.to_int z ≠ Decimal.Neg Decimal.Nil.
Proof.
  destruct z; simpl; split; try discriminate.
  - intros [= H]. now apply DecimalPos.Unsigned.to_uint_nonnil in H.
  - intros [= H]. now apply DecimalPos.Unsigned.to_uint_nonnil in H.
Qed.

Lemma Z_to_string_inj (x y : Z) : JS.Z_to_string x = JS.Z_to_string y -> x = y.
Proof.
  unfold JS.Z_to_string. intros H. apply DecimalZ.to_int_inj.
  destruct (to_int_not_nil x), (to_int_not_nil y).
  assert (E : NilZero.int_of_string (NilZero.string_of_int (Z.to_int x))
              = NilZero.int_of_string (NilZero.string_of_int (Z.to_int y)))
    by now rewrite H.
  rewrite !NilZero.isi in E by assumption. now injection E.
Qed.

Section SendFacts.
Import JS Components.
Variable server : fetch_call -> fetch_result.



(** X23. The two messages one send appends have different ids (they are used
    as React keys), provided the clock does not run backwards between the
    two readings of [Date.now()]. *)
Theorem handleSend_ids_differ (st st' : ChatState) (clock : SendClock)
    (events : list event) :
  all_white (input st) = false ->
  (user_now clock <= reply_now clock)%Z ->
  handleSend server st clock = Some (st', events) ->
  exists mine reply,
    messages st' = messages st ++ [mine; reply] /\ id mine ≠ id reply.
Proof.
  intros H Hclock. unfold handleSend.
  assert (Hb : blank (trim (input st)) = false).
  { apply blank_false. intros E. apply trim_empty_iff in E. congruence. }
  rewrite Hb. cbv zeta. destruct (reply_text _) as [s| |]; [|discriminate..].
  intros [= <- _]. eexists _, _. split; [reflexivity|].
  cbn [id]. intros E. apply Z_to_string_inj in E. lia.
Qed.
End SendFacts.


Lemma handleSend_ids_differ_witness :
  exists mine reply : Components.Message,
    Components.text mine = "hi" /\ Components.id mine ≠ Components.id reply.
Proof.
  destruct (handleSend_ids_differ Route.unreachable
              {| Components.messages := []; Components.input := "hi";
                 Components.chat_loading := false; Components.isExpanded := true |}
              _
              {| Components.user_now := 5; Components.user_date := 6;
                 Components.reply_now := 5; Components.reply_date := 8 |}
              _ eq_refl ltac:(simpl; lia) eq_refl)
    as (mine & reply & E & Hne).
  exists mine, reply. split; [|exact Hne].
  simpl in E. now injection E as <- _.
Defined.

(** ** The tabs, the chat and the route handlers together *)

Section EndToEndFacts.
Import JS Components.
Variable env : option string.
Variable backend : fetch_call -> fetch_result.
Variable null_read_shown : string -> string.

Lemma failing_search (b : json) :
  (forall call data, backend call ≠ Parsed data) ->
  App.served env backend (FetchCall "/api/search" b)
  = Parsed (JObj (<["source" := JStr "error"]>
                  {[ "error" := JStr Route.backend_down ]})).
Proof.
  intros Hfail. change (App.served env backend (FetchCall "/api/search" b))
    with (Parsed (Route.resp_body
                    (Route.reply (Route.POST_search env backend (Some b))))).
  destruct (POST_search_cases env backend (Some b)) as [(c & d & _ & E & _)|H].
  - destruct (Hfail _ _ E).
  - now rewrite H.
Qed.

Lemma failing_findme (b : json) :
  (forall call data, backend call ≠ Parsed data) ->
  App.served env backend (FetchCall "/api/findme" b)
  = Parsed (JObj {[ "error" := JStr Route.backend_down ]}).
Proof.
  intros Hfail. change (App.served env backend (FetchCall "/api/findme" b))
    with (Parsed (Route.resp_body
                    (Route.reply (Route.POST_findme env backend (Some b))))).
  destruct (POST_findme_cases env backend (Some b)) as [(c & d & _ & E & _)|H].
  - destruct (Hfail _ _ E).
  - now rewrite H.
Qed.

Lemma failing_chat (b : json) :
  (forall call data, backend call ≠ Parsed data) ->
  App.served env backend (FetchCall "/api/chat" b)
  = Parsed (JObj {[ "response" := JStr Route.chat_down ]}).
Proof.
  intros Hfail. change (App.served env backend (FetchCall "/api/chat" b))
    with (Parsed (Route.resp_body
                    (Route.reply (Route.POST_chat env backend (Some b))))).
  destruct (POST_chat_cases env backend (Some b)) as [(c & d & _ & E & _)|H].
  - destruct (Hfail _ _ E).
  - now rewrite H.
Qed.

(** X24. A backend that cannot be reached shows up as a readable message in
    every part of the page. When every backend call fails: a complete search
    ends with the result [{source: "error", error: ...}] and the message
    "Error: Failed to connect to backend. Make sure Python API is running.";
    a find-me search with a field ends with no results and that same
    sentence as its message; a chat message that is not blank gets the
    apology of the chat route as the AI's reply. In all three the loading
    flag is off at the end. *)
Theorem backend_failure_is_shown_everywhere
    (st : SearchState) (fs : FindState) (cs : ChatState) (clock : SendClock) :
  (forall call data, backend call ≠ Parsed data) ->
  university st ≠ "" -> field st ≠ "" ->
  fetchAll st = true \/ question st ≠ "" ->
  req_field (requirements fs) ≠ "" ->
  all_white (input cs) = false ->
  let searched := handleSearch (App.served env backend) null_read_shown st in
  let found := handleFind (App.served env backend) null_read_shown fs in
  let sent := handleSend (App.served env backend) cs clock in
  (result searched.1
   = JObj (<["source" := JStr "error"]> {[ "error" := JStr Route.backend_down ]})
   /\ last searched.2
      = Some (AIMessage (JStr ("Error: " ++ Route.backend_down)))
   /\ loading searched.1 = false)
  /\ (results found.1 = JArr []
      /\ last found.2 = Some (AIMessage (JStr Route.backend_down))
      /\ find_loading found.1 = false)
  /\ exists cs' events mine reply,
       sent = Some (cs', events)
       /\ messages cs' = messages cs ++ [mine; reply]
       /\ text reply = Route.chat_down /\ sender reply = ai
       /\ chat_loading cs' = false.
Proof.
  intros Hfail Hu Hf Hq Hrf Hin searched found sent. subst searched found sent.
  split; [|split].
  - unfold handleSearch. apply blank_false in Hu, Hf. rewrite Hu, Hf. cbn [orb].
    assert (E : negb (fetchAll st) && blank (question st) = false).
    { destruct Hq as [->|Hq]; [reflexivity|].
      apply blank_false in Hq. rewrite Hq. apply andb_false_r. }
    rewrite E. cbv zeta. rewrite (failing_search _ Hfail). repeat split.
  - unfold handleFind. apply blank_false in Hrf. cbv zeta. rewrite Hrf.
    rewrite (failing_findme _ Hfail). repeat split.
  - unfold handleSend.
    assert (Hb : blank (trim (input cs)) = false).
    { apply blank_false. intros E. apply trim_empty_iff in E. congruence. }
    rewrite Hb. cbv zeta. rewrite (failing_chat _ Hfail).
    eexists _, _, _, _. split; [reflexivity|]. repeat split.
Qed.
End EndToEndFacts.

Lemma backend_failure_is_shown_everywhere_witness :
  let st := {| Components.university := "MIT"; Components.degree := Components.Master;
               Components.field := "Physics"; Components.question := "tuition";
               Components.fetchAll := false; Components.loading := false;
               Components.result := JS.JNull |} in
  Components.loading
    (Components.handleSearch (App.served None Route.unreachable) (fun k => k) st).1
  = false.
Proof.
  intros st.
  refine (proj2 (proj2 (proj1 (backend_failure_is_shown_everywhere None
                                 Route.unreachable (fun k => k) st
                                 {| Components.requirements :=
                                      {| Components.req_degree := "Master";
                                         Components.req_field := "Physics";
                                         Components.maxTuition := "";
                                         Components.minGPA := "";
                                         Components.englishTest := "TOEFL";
                                         Components.englishScore := "";
                                         Components.country := "USA";
                                         Components.preferScholarship := false |};
                                    Components.find_loading := false;
                                    Components.results := JS.JArr [];
                                    Components.totalInDatabase := JS.JNum 0 |}
                                 {| Components.messages := [];
                                    Components.input := "hi";
                                    Components.chat_loading := false;
                                    Components.isExpanded := true |}
                                 {| Components.user_now := 1;
                                    Components.user_date := 1;
                                    Components.reply_now := 2;
                                    Components.reply_date := 2 |}
                                 _ _ _ _ _ _)))).
  - intros call data. discriminate.
  - discriminate.
  - discriminate.
  - right. discriminate.
  - discriminate.
  - reflexivity.
Defined.

Section RelayFacts.
Import JS Components.
Variable env : option string.
Variable backend : fetch_call -> fetch_result.
Variable null_read_shown : string -> string.

(** X25. A chat message goes to the backend as typed and the answer comes
    back as the AI's reply: for an input that is not blank, the backend
    receives exactly one request, to [/api/chat], whose body is
    [{message: input}]; and when it answers with an object whose [response]
    is a non-empty string, the transcript gains the user's text followed by
    an AI message with that string. *)
Theorem chat_message_round_trip
    (cs : ChatState) (clock : SendClock) (m : gmap string json) (answer : string) :
  all_white (input cs) = false ->
  let delivered :=
    FetchCall (Route.PYTHON_API_URL env ++ "/api/chat")
      (JObj {[ "message" := JStr (input cs) ]}) in
  backend delivered = Parsed (JObj m) ->
  m !! "response" = Some (JStr answer) ->
  answer ≠ "" ->
  exists cs' call mine reply,
    handleSend (App.served env backend) cs clock = Some (cs', [Fetch call])
    /\ App.forwarded env backend call = [delivered]
    /\ messages cs' = messages cs ++ [mine; reply]
    /\ text mine = input cs /\ sender mine = user
    /\ text reply = answer /\ sender reply = ai.
Proof.
  intros Hin delivered Hb Hm Ha. unfold handleSend.
  assert (Hbl : blank (trim (input cs)) = false).
  { apply blank_false. intros E. apply trim_empty_iff in E. congruence. }
  rewrite Hbl. cbv zeta.
  set (call := FetchCall "/api/chat"
                 (JObj (obj_of [("message", Some (JStr (input cs)))]))).
  assert (Hserved : App.served env backend call = Parsed (JObj m)).
  { change (App.served env backend call)
      with (Parsed (Route.resp_body
                      (Route.reply (Route.POST_chat env backend (Some (body call)))))).
    unfold Route.POST_chat, Route.try_catch, Route.bind, Route.request_json,
      Route.destructure, Route.fetch_json. cbn [fst snd body call].
    match goal with
    | |- context [backend ?c] => change c with delivered
    end.
    now rewrite Hb. }
  rewrite Hserved. unfold reply_text, get_prop. rewrite Hm.
  unfold js_or, truthy. apply String.eqb_neq in Ha. rewrite Ha. cbn [negb].
  eexists _, call, _, _. split; [reflexivity|].
  split; [|repeat split].
  change (App.forwarded env backend call)
    with (Route.sent (Route.POST_chat env backend (Some (body call)))).
  rewrite POST_chat_sent. reflexivity.
Qed.

(** X26. What the search tab's two buttons make the backend receive. A
    complete search arrives at [/api/fetch_all] when the fetch-all box is
    ticked and at [/api/search] otherwise, with the university, degree and
    field as typed, the question typed (or "all"), and [force_refresh] false;
    the [fetchAll] flag itself is not passed on. An update always arrives at
    [/api/fetch_all] with [force_refresh] true and without a question. In
    both cases the backend receives exactly one request. *)
Theorem search_tab_requests_as_received (st : SearchState) :
  let common (m : gmap string json) :=
    m !! "university" = Some (JStr (university st))
    /\ m !! "degree" = Some (JStr (degree_name (degree st)))
    /\ m !! "field" = Some (JStr (field st))
    /\ m !! "fetchAll" = None /\ m !! "forceRefresh" = None in
  (university st ≠ "" -> field st ≠ "" ->
   fetchAll st = true \/ question st ≠ "" ->
   forall call,
     Fetch call ∈ (handleSearch (App.served env backend) null_read_shown st).2 ->
     exists m,
       App.forwarded env backend call
       = [FetchCall
            (Route.PYTHON_API_URL env
             ++ (if fetchAll st then "/api/fetch_all" else "/api/search"))%string
            (JObj m)]
       /\ common m
       /\ m !! "question"
          = Some (JStr (if fetchAll st then "all" else question st))
       /\ m !! "force_refresh" = Some (JBool false))
  /\ (forall call,
        Fetch call ∈ (handleUpdate (App.served env backend) st).2 ->
        exists m,
          App.forwarded env backend call
          = [FetchCall (Route.PYTHON_API_URL env ++ "/api/fetch_all")%string (JObj m)]
          /\ common m /\ m !! "question" = None
          /\ m !! "force_refresh" = Some (JBool true)).
Proof.
  intros common. subst common. split.
  - intros Hu Hf Hq call. unfold handleSearch.
    apply blank_false in Hu, Hf. rewrite Hu, Hf. cbn [orb].
    assert (E : negb (fetchAll st) && blank (question st) = false).
    { destruct Hq as [->|Hq]; [reflexivity|].
      apply blank_false in Hq. rewrite Hq. apply andb_false_r. }
    rewrite E. cbv zeta. cbn [snd]. intros Hin.
    apply elem_of_cons in Hin as [Hin|Hin]; [discriminate Hin|].
    apply elem_of_cons in Hin as [Hin|Hin].
    + injection Hin as ->.
      change (App.forwarded env backend ?c)
        with (Route.sent (Route.POST_search env backend (Some (body c)))).
      rewrite POST_search_sent_object by discriminate. cbv zeta.
      destruct (fetchAll st); eexists; (split; [reflexivity|]);
        repeat split; reflexivity.
    + exfalso. revert Hin.
      match goal with
      | |- context [App.served env backend ?c] =>
          destruct (App.served env backend c) as [e|e|data]
      end; [| |destruct (get_prop (Some data) "source")];
        cbn [snd]; intros Hin; apply list_elem_of_singleton in Hin;
        discriminate Hin.
  - intros call. unfold handleUpdate. cbv zeta. intros Hin.
    assert (Hcall : call
                    = FetchCall "/api/search"
                        (JObj (obj_of [("university", Some (JStr (university st)));
                                       ("degree", Some (JStr (degree_name (degree st))));
                                       ("field", Some (JStr (field st)));
                                       ("fetchAll", Some (JBool true));
                                       ("forceRefresh", Some (JBool true))]))).
    { revert Hin.
      match goal with
      | |- context [App.served env backend ?c] =>
          destruct (App.served env backend c) as [e|e|data]
      end; cbn [snd]; intros Hin;
        (apply elem_of_cons in Hin as [Hin|Hin]; [discriminate Hin|]);
        (apply elem_of_cons in Hin as [Hin|Hin];
         [now injection Hin
         |apply list_elem_of_singleton in Hin; discriminate Hin]). }
    subst call.
    change (App.forwarded env backend ?c)
      with (Route.sent (Route.POST_search env backend (Some (body c)))).
    rewrite POST_search_sent_object by discriminate. cbv zeta.
    eexists. split; [reflexivity|]. repeat split; reflexivity.
Qed.
End RelayFacts.

Lemma chat_message_round_trip_witness :
  exists cs' call mine reply,
    Components.handleSend
      (App.served None (fun _ => JS.Parsed (JS.JObj {[ "response" := JS.JStr "Hello" ]})))
      {| Components.messages := []; Components.input := "hi";
         Components.chat_loading := false; Components.isExpanded := true |}
      {| Components.user_now := 1; Components.user_date := 1;
         Components.reply_now := 2; Components.reply_date := 2 |}
    = Some (cs', [Components.Fetch call])
    /\ Components.messages cs' = [mine; reply]
    /\ Components.text reply = "Hello".
Proof.
  destruct (chat_message_round_trip None
              (fun _ => JS.Parsed (JS.JObj {[ "response" := JS.JStr "Hello" ]}))
              {| Components.messages := []; Components.input := "hi";
                 Components.chat_loading := false; Components.isExpanded := true |}
              {| Components.user_now := 1; Components.user_date := 1;
                 Components.reply_now := 2; Components.reply_date := 2 |}
              {[ "response" := JS.JStr "Hello" ]} "Hello")
    as (cs' & call & mine & reply & Hs & _ & Hm & _ & _ & Ht & _).
  - reflexivity.
  - reflexivity.
  - reflexivity.
  - discriminate.
  - exists cs', call, mine, reply. repeat split; assumption.
Defined.

Lemma search_tab_requests_as_received_witness :
  let st := {| Components.university := ""; Components.degree := Components.PhD;
               Components.field := ""; Components.question := "";
               Components.fetchAll := false; Components.loading := false;
               Components.result := JS.JNull |} in
  let call :=
    JS.FetchCall "/api/search"
      (JS.JObj (JS.obj_of [("university", Some (JS.JStr ""));
                           ("degree", Some (JS.JStr "PhD"));
                           ("field", Some (JS.JStr ""));
                           ("fetchAll", Some (JS.JBool true));
                           ("forceRefresh", Some (JS.JBool true))])) in
  exists m,
    App.forwarded None Route.unreachable call
    = [JS.FetchCall "http://localhost:5000/api/fetch_all" (JS.JObj m)]
    /\ m !! "force_refresh" = Some (JS.JBool true).
Proof.
  intros st call.
  destruct (proj2 (search_tab_requests_as_received None Route.unreachable
                     (fun k => k) st) call)
    as (m & E & _ & _ & F).
  - apply list_elem_of_further, list_elem_of_here.
  - exists m. split; [exact E|exact F].
Defined.
